(** * PlexCache-R: path resolution, ZFS detection, instance lock, file copy
      and the maintenance runner, embedded from [system_utils.py] and
      [web/services/maintenance_runner.py].

    Python values are modelled as follows: [str] as [string] (one [ascii]
    per character), [int] as [Z], [bool] as [bool], [None]-able values as
    [option], the [set] of ZFS prefixes as a [gset string], dictionaries as
    [gmap string _].  Calls into the operating system take their outcome
    from an explicit environment argument.  Logging calls have no effect on
    results and are left out, except in the background thread of the runner,
    whose trace of events records them. *)

From Stdlib Require Import ZArith Ascii String DecimalString.
From stdpp Require Import base option list gmap strings.

Local Open Scope Z_scope.

(* ===================================================================== *)
(** ** Python string primitives used by the sources *)
(* ===================================================================== *)

Module Py.

(** [s.startswith(p)] *)
Definition startswith (s p : string) : bool := String.prefix p s.

(** [s[n:]] *)
Fixpoint slice_from (n : nat) (s : string) : string :=
  match n, s with
  | O, _ => s
  | S _, EmptyString => EmptyString
  | S n', String _ s' => slice_from n' s'
  end.

(** [s.endswith(suf)]: some suffix of [s] is [suf]. *)
Fixpoint endswith (s suf : string) : bool :=
  if String.eqb s suf then true
  else match s with
       | EmptyString => false
       | String _ s' => endswith s' suf
       end.

(** [s.rstrip(c)] for a single character [c]. *)
Fixpoint rstrip (c : ascii) (s : string) : string :=
  match s with
  | EmptyString => EmptyString
  | String a s' =>
      match rstrip c s' with
      | EmptyString => if Ascii.eqb a c then EmptyString else String a EmptyString
      | t => String a t
      end
  end.

(** [s.split(c)] for a single-character separator: never the empty list. *)
Fixpoint split (c : ascii) (s : string) : list string :=
  match s with
  | EmptyString => [EmptyString]
  | String a s' =>
      if Ascii.eqb a c then EmptyString :: split c s'
      else match split c s' with
           | h :: t => String a h :: t
           | [] => [String a EmptyString]
           end
  end.

(** [c.join(parts)] for a single-character separator. *)
Fixpoint join (c : ascii) (parts : list string) : string :=
  match parts with
  | [] => EmptyString
  | [x] => x
  | x :: rest => x +:+ String c (join c rest)
  end.

(** [c not in s] *)
Fixpoint char_free (c : ascii) (s : string) : bool :=
  match s with
  | EmptyString => true
  | String a s' => negb (Ascii.eqb a c) && char_free c s'
  end.

(** [str.isspace] on one character, for code points below 256. *)
Definition isspace (a : ascii) : bool :=
  let n := N_of_ascii a in
  ((9 <=? n) && (n <=? 13) || (28 <=? n) && (n <=? 32)
   || (n =? 133) || (n =? 160))%N.

(** [s.split()] with no argument: maximal runs of non-space characters.
    [cur] is the field being read, in reverse. *)
Fixpoint split_ws_aux (cur : option string) (s : string) : list string :=
  match s with
  | EmptyString =>
      match cur with Some w => [w] | None => [] end
  | String a s' =>
      if isspace a then
        match cur with
        | Some w => w :: split_ws_aux None s'
        | None => split_ws_aux None s'
        end
      else
        match cur with
        | Some w => split_ws_aux (Some (w +:+ String a EmptyString)) s'
        | None => split_ws_aux (Some (String a EmptyString)) s'
        end
  end.

Definition split_ws (s : string) : list string := split_ws_aux None s.

(** [str.lower] on one character, for code points below 256. *)
Definition lower_char (a : ascii) : ascii :=
  let n := N_of_ascii a in
  if ((65 <=? n) && (n <=? 90)
      || (192 <=? n) && (n <=? 222) && negb (n =? 215))%N
  then ascii_of_N (n + 32) else a.

Fixpoint lower (s : string) : string :=
  match s with
  | EmptyString => EmptyString
  | String a s' => String (lower_char a) (lower s')
  end.

(** [sub in s] *)
Fixpoint contains (s sub : string) : bool :=
  if String.prefix sub s then true
  else match s with
       | EmptyString => false
       | String _ s' => contains s' sub
       end.

(** [str(n)] for an [int]. *)
Definition str_of_int (n : Z) : string :=
  NilZero.string_of_int (Z.to_int n).

End Py.

(* ===================================================================== *)
(** ** system_utils.py: Unraid path utilities *)
(* ===================================================================== *)
(** ** Exceptions and results of fallible calls *)
(* ===================================================================== *)

(** A raised Python exception: its class name, whether the class derives
    from [Exception] (as opposed to [BaseException] only, like [SystemExit]),
    and [str(e)]. *)
Record PyExc := mkExc {
  exc_class : string;
  exc_is_Exception : bool;
  exc_str : string
}.

Definition OSError (msg : string) : PyExc := mkExc "OSError" true msg.
Definition RuntimeError (msg : string) : PyExc := mkExc "RuntimeError" true msg.
Definition AttributeError (msg : string) : PyExc := mkExc "AttributeError" true msg.

(** A call either returns a value or raises. *)
Inductive Result (A : Type) : Type :=
| Ok (a : A)
| Raise (e : PyExc).
Arguments Ok {A} a.
Arguments Raise {A} e.

(* ===================================================================== *)
(** ** system_utils.py *)
(* ===================================================================== *)

Module SystemUtils.

(** *** Unraid path utilities *)

Definition user_root : string := "/mnt/user/".
Definition user0_root : string := "/mnt/user0/".

(** The [for prefix in _zfs_user_prefixes: if ...: return ...] loop of
    [get_array_direct_path]: [Some r] when the loop returns [r], [None]
    when it runs to its end. *)
Fixpoint zfs_prefix_loop (user_share_path : string) (prefixes : list string)
  : option string :=
  match prefixes with
  | [] => None
  | prefix :: rest =>
      if Py.startswith user_share_path prefix then Some user_share_path
      else zfs_prefix_loop user_share_path rest
  end.

(** The module global [_zfs_user_prefixes] starts out empty. *)
Definition _zfs_user_prefixes_initial : gset string := ∅.

(** [set_zfs_prefixes] rebinds the global: the new value replaces the old. *)
Definition set_zfs_prefixes (prefixes : gset string)
    (_zfs_user_prefixes : gset string) : gset string :=
  prefixes.

(** [get_array_direct_path], with the current value of the global
    [_zfs_user_prefixes] passed explicitly.  The set is iterated in the
    order of [elements]. *)
Definition get_array_direct_path
    (_zfs_user_prefixes : gset string) (user_share_path : string) : string :=
  if Py.startswith user_share_path user_root then
    match zfs_prefix_loop user_share_path (elements _zfs_user_prefixes) with
    | Some r => r
    | None =>
        user0_root +:+ Py.slice_from (String.length user_root) user_share_path
    end
  else user_share_path.

(** *** ZFS detection *)

(** What [subprocess.run(['df', '-T', path], capture_output=True,
    text=True, timeout=5)] does: it completes with a return code and the
    captured standard output, or raises [TimeoutExpired] after the 5 second
    limit, or raises an [OSError] ([FileNotFoundError] included). *)
Inductive RunOutcome : Type :=
| CompletedProcess (returncode : Z) (stdout : string)
| TimeoutExpired
| RunOSError (msg : string).

(** What reading [/proc/mounts] gives: the lines of the file, or an
    [OSError] from [open]. *)
Inductive MountsFile : Type :=
| MountsLines (lines : list string)
| MountsOSError (msg : string).

(** The host as seen by [detect_zfs]. *)
Record Host := mkHost {
  run_df_T : string -> RunOutcome;
  proc_mounts : MountsFile
}.

(** The test applied to one line of [/proc/mounts]. *)
Definition line_is_zfs_share (share_name line : string) : bool :=
  let fields := Py.split_ws line in
  if (3 <=? length fields)%nat then
    match fields !! 1%nat, fields !! 2%nat with
    | Some mountpoint, Some fs_type =>
        String.eqb fs_type "zfs"
        && Py.endswith (Py.rstrip "/" mountpoint) ("/" +:+ share_name)
    | _, _ => false
    end
  else false.

(** The [for line in f] loop of [_check_zfs_mount_for_share]. *)
Fixpoint mounts_loop (share_name : string) (lines : list string) : bool :=
  match lines with
  | [] => false
  | line :: rest =>
      if line_is_zfs_share share_name line then true
      else mounts_loop share_name rest
  end.

Definition _check_zfs_mount_for_share (h : Host) (share_name : string) : bool :=
  match proc_mounts h with
  | MountsLines lines => mounts_loop share_name lines
  | MountsOSError _ => false
  end.

(** The [try] block of [detect_zfs]: [true] when it executes
    [return True]. *)
Definition df_says_zfs (o : RunOutcome) : bool :=
  match o with
  | CompletedProcess returncode stdout =>
      (returncode =? 0) && Py.contains (Py.lower stdout) "zfs"
  | TimeoutExpired => false
  | RunOSError _ => false
  end.

Definition detect_zfs (h : Host) (path : string) : bool :=
  if df_says_zfs (run_df_T h path) then true
  else if Py.startswith path "/mnt/user/" then
    let parts := Py.split "/" (Py.rstrip "/" path) in
    if (4 <=? length parts)%nat then
      match parts !! 3%nat with
      | Some share_name => _check_zfs_mount_for_share h share_name
      | None => false
      end
    else false
  else false.

(** *** SingleInstanceLock *)

(** Who holds the exclusive [flock] on the lock file: an open file
    description of this process, or another process. *)
Inductive Holder : Type :=
| HeldByFd (fd : nat)
| HeldByOther.

(** The part of the operating system the lock touches. *)
Record LockOS := mkLockOS {
  flock_holder : option Holder;
  next_fd : nat;
  lock_file_exists : bool;
  lock_file_content : string;
  atexit_registered : nat
}.

(** Faults injected into one call: [open] raising, [write]/[flush]
    raising, [os.remove] raising. *)
Record Faults := mkFaults {
  open_raises : bool;
  write_raises : bool;
  remove_raises : bool
}.

Definition no_faults : Faults := mkFaults false false false.

(** [open(lock_file, 'w')]: a new descriptor on a created or truncated
    file. *)
Definition os_open_w (os : LockOS) : nat * LockOS :=
  (next_fd os,
   mkLockOS (flock_holder os) (S (next_fd os)) true EmptyString (atexit_registered os)).

(** Closing a descriptor drops the lock its description holds. *)
Definition os_close (fd : nat) (os : LockOS) : LockOS :=
  match flock_holder os with
  | Some (HeldByFd fd') =>
      if (fd' =? fd)%nat
      then mkLockOS None (next_fd os) (lock_file_exists os)
             (lock_file_content os) (atexit_registered os)
      else os
  | _ => os
  end.

(** [fcntl.flock(fd, LOCK_EX | LOCK_NB)]: [None] stands for the
    [BlockingIOError] raised when another description holds the lock. *)
Definition os_flock_ex_nb (fd : nat) (os : LockOS) : option LockOS :=
  match flock_holder os with
  | None =>
      Some (mkLockOS (Some (HeldByFd fd)) (next_fd os) (lock_file_exists os)
              (lock_file_content os) (atexit_registered os))
  | Some (HeldByFd fd') => if (fd' =? fd)%nat then Some os else None
  | Some HeldByOther => None
  end.

(** [fcntl.flock(fd, LOCK_UN)] *)
Definition os_flock_un (fd : nat) (os : LockOS) : LockOS :=
  match flock_holder os with
  | Some (HeldByFd fd') =>
      if (fd' =? fd)%nat
      then mkLockOS None (next_fd os) (lock_file_exists os)
             (lock_file_content os) (atexit_registered os)
      else os
  | _ => os
  end.

Definition os_write (data : string) (os : LockOS) : LockOS :=
  mkLockOS (flock_holder os) (next_fd os) (lock_file_exists os)
    (lock_file_content os +:+ data) (atexit_registered os).

Definition os_atexit_register (os : LockOS) : LockOS :=
  mkLockOS (flock_holder os) (next_fd os) (lock_file_exists os)
    (lock_file_content os) (S (atexit_registered os)).

Definition os_remove (os : LockOS) : LockOS :=
  mkLockOS (flock_holder os) (next_fd os) false EmptyString (atexit_registered os).


Record SingleInstanceLock := mkLock {
  lock_file : string;
  lock_fd : option nat;
  locked : bool
}.

Definition __init__ (lock_file : string) : SingleInstanceLock :=
  mkLock lock_file None false.

Definition set_lock_fd (v : option nat) (self : SingleInstanceLock) :=
  mkLock (lock_file self) v (locked self).
Definition set_locked (v : bool) (self : SingleInstanceLock) :=
  mkLock (lock_file self) (lock_fd self) v.

(** The [except (IOError, OSError)] branch of [acquire]. *)
Definition acquire_except (os : LockOS) (self : SingleInstanceLock)
  : bool * LockOS * SingleInstanceLock :=
  match lock_fd self with
  | Some fd => (false, os_close fd os, set_lock_fd None self)
  | None => (false, os, self)
  end.

(** [acquire].  Rebinding [self.lock_fd] drops the only reference to the
    file object it held before, which closes that descriptor. *)
Definition acquire (pid : Z) (f : Faults) (os : LockOS)
    (self : SingleInstanceLock) : bool * LockOS * SingleInstanceLock :=
  if open_raises f then acquire_except os self
  else
    let '(fd, os1) := os_open_w os in
    let os2 := match lock_fd self with
               | Some old => os_close old os1
               | None => os1
               end in
    let self1 := set_lock_fd (Some fd) self in
    match os_flock_ex_nb fd os2 with
    | None => acquire_except os2 self1
    | Some os3 =>
        if write_raises f then acquire_except os3 self1
        else
          let os4 := os_write (Py.str_of_int pid) os3 in
          let self2 := set_locked true self1 in
          (true, os_atexit_register os4, self2)
    end.

(** [release].  An exception inside the [try] is swallowed where it
    occurs ([except Exception: pass]). *)
Definition release (f : Faults) (os : LockOS) (self : SingleInstanceLock)
  : LockOS * SingleInstanceLock :=
  if negb (locked self) then (os, self)
  else
    let '(os1, self1) :=
      match lock_fd self with
      | Some fd => (os_close fd (os_flock_un fd os), set_lock_fd None self)
      | None => (os, self)
      end in
    if lock_file_exists os1 then
      if remove_raises f then (os1, self1)
      else (os_remove os1, set_locked false self1)
    else (os1, set_locked false self1).

(** *** FileUtils.copy_file_with_permissions *)

Record stat_result := mkStat {
  st_uid : Z;
  st_gid : Z;
  st_mode : Z
}.

(** An operating-system call returns, or fails by raising an [OSError]
    (or one of its subclasses) whose [str] is [msg]. *)
Inductive OSResult (A : Type) : Type :=
| OSOk (a : A)
| OSFail (msg : string).
Arguments OSOk {A} a.
Arguments OSFail {A} msg.

(** The operating-system calls of the copy, over a world [W] they act on.
    [os_umask] installs a mask and returns the previous one; it cannot
    fail. *)
Record OSOps (W : Type) := mkOSOps {
  os_stat : string -> W -> OSResult stat_result * W;
  shutil_copy2 : string -> string -> W -> OSResult unit * W;
  os_chown : string -> Z -> Z -> W -> OSResult unit * W;
  os_chmod : string -> Z -> W -> OSResult unit * W;
  os_umask : Z -> W -> Z * W
}.
Arguments os_stat {W} _ _ _.
Arguments shutil_copy2 {W} _ _ _ _.
Arguments os_chown {W} _ _ _ _ _.
Arguments os_chmod {W} _ _ _ _.
Arguments os_umask {W} _ _ _.

(** Computations that act on the world and return or raise. *)
Definition M (W A : Type) : Type := W -> Result A * W.

Definition ret {W A} (a : A) : M W A := fun w => (Ok a, w).
Definition raise {W A} (e : PyExc) : M W A := fun w => (Raise e, w).
Definition bind {W A B} (m : M W A) (k : A -> M W B) : M W B :=
  fun w => match m w with
           | (Ok a, w') => k a w'
           | (Raise e, w') => (Raise e, w')
           end.
(** [try: m except Exception as e: handler(e)] *)
Definition try_except {W A} (m : M W A) (handler : PyExc -> M W A) : M W A :=
  fun w => match m w with
           | (Ok a, w') => (Ok a, w')
           | (Raise e, w') =>
               if exc_is_Exception e then handler e w' else (Raise e, w')
           end.
(** A call that may raise [OSError]. *)
Definition call {W A} (f : W -> OSResult A * W) : M W A :=
  fun w => match f w with
           | (OSOk a, w') => (Ok a, w')
           | (OSFail msg, w') => (Raise (OSError msg), w')
           end.
(** A call that cannot fail. *)
Definition call_total {W A} (f : W -> A * W) : M W A :=
  fun w => let '(a, w') := f w in (Ok a, w').

Notation "x <- m ;; k" := (bind m (fun x => k))
  (at level 100, m at next level, right associativity).
Notation "m ;;; k" := (bind m (fun _ => k))
  (at level 100, right associativity).

Record FileUtils := mkFileUtils {
  is_linux : bool;
  permissions : Z
}.

Section Copy.
Context {W : Type} (os : OSOps W).

Definition copy_file_with_permissions (self : FileUtils)
    (src dest : string) (verbose : bool) : M W Z :=
  try_except
    (if is_linux self then
       stat_info <- call (os_stat os src) ;;
       let src_uid := st_uid stat_info in
       let src_gid := st_gid stat_info in
       call (shutil_copy2 os src dest) ;;;
       call (os_chown os dest src_uid src_gid) ;;;
       original_umask <- call_total (os_umask os 0) ;;
       call (os_chmod os dest (permissions self)) ;;;
       call_total (os_umask os original_umask) ;;;
       (if verbose then call (os_stat os dest) ;;; ret tt else ret tt) ;;;
       ret 0
     else
       call (shutil_copy2 os src dest) ;;;
       ret 0)
    (fun e => raise (RuntimeError ("Error copying file: " +:+ exc_str e))).
End Copy.

End SystemUtils.

(* ===================================================================== *)
(** ** web/services/maintenance_runner.py *)
(* ===================================================================== *)

Module Runner.

(** Human-readable display names for actions. *)
Definition ACTION_DISPLAY : gmap string string :=
  {[ "protect-with-backup" := "Keeping {count} file(s) on cache...";
     "sync-to-array" := "Moving {count} file(s) to array...";
     "fix-with-backup" := "Fixing {count} file(s) with backup...";
     "restore-plexcached" := "Restoring {count} backup(s)...";
     "delete-plexcached" := "Deleting {count} backup(s)..." ]}.

(** [template.format(count=n)] for templates whose only braces are
    [{count}] fields, as is the case for every template above and for the
    default text.  [skip] counts characters of a field still to drop. *)
Fixpoint format_count_aux (skip : nat) (n : string) (template : string)
  : string :=
  match template with
  | EmptyString => EmptyString
  | String a rest =>
      match skip with
      | S k => format_count_aux k n rest
      | O =>
          if String.prefix "{count}" template
          then n +:+ format_count_aux 6 n rest
          else String a (format_count_aux 0 n rest)
      end
  end.

Definition format_count (template : string) (count : Z) : string :=
  format_count_aux 0 (Py.str_of_int count) template.

Inductive MaintenanceState : Type := IDLE | RUNNING | COMPLETED | FAILED.

(** [MaintenanceState.X.value] *)
Definition value (s : MaintenanceState) : string :=
  match s with
  | IDLE => "idle"
  | RUNNING => "running"
  | COMPLETED => "completed"
  | FAILED => "failed"
  end.

Definition state_eqb (a b : MaintenanceState) : bool :=
  match a, b with
  | IDLE, IDLE | RUNNING, RUNNING | COMPLETED, COMPLETED | FAILED, FAILED => true
  | _, _ => false
  end.

(** Modelled from the spec: [ActionResult] is declared in
    [web/services/maintenance_service.py], which is not among the sources;
    the status snapshot reads its message, success flag, affected count and
    error list. *)
Record ActionResult := mkActionResult {
  success : bool;
  message : string;
  affected_count : Z;
  errors : list string
}.

(** Clock readings ([datetime.now()], [time.time()]) are integers here;
    a duration is a difference of two readings. *)
Record MaintenanceResult := mkResult {
  state : MaintenanceState;
  action_name : string;
  action_display : string;
  started_at : option Z;
  completed_at : option Z;
  duration_seconds : Z;
  action_result : option ActionResult;
  error_message : option string;
  file_count : Z
}.

Definition set_state (v : MaintenanceState) (r : MaintenanceResult) :=
  mkResult v (action_name r) (action_display r) (started_at r)
    (completed_at r) (duration_seconds r) (action_result r)
    (error_message r) (file_count r).
Definition set_completed_at (v : option Z) (r : MaintenanceResult) :=
  mkResult (state r) (action_name r) (action_display r) (started_at r)
    v (duration_seconds r) (action_result r) (error_message r) (file_count r).
Definition set_duration_seconds (v : Z) (r : MaintenanceResult) :=
  mkResult (state r) (action_name r) (action_display r) (started_at r)
    (completed_at r) v (action_result r) (error_message r) (file_count r).
Definition set_action_result (v : option ActionResult) (r : MaintenanceResult) :=
  mkResult (state r) (action_name r) (action_display r) (started_at r)
    (completed_at r) (duration_seconds r) v (error_message r) (file_count r).
Definition set_error_message (v : option string) (r : MaintenanceResult) :=
  mkResult (state r) (action_name r) (action_display r) (started_at r)
    (completed_at r) (duration_seconds r) (action_result r) v (file_count r).

(** How a call of the work function ends. *)
Inductive WorkOutcome : Type :=
| Returned (v : option ActionResult)
| Raised (e : PyExc).

(** How a call of the completion callback ends. *)
Inductive CallbackOutcome : Type :=
| CbReturned
| CbRaised (e : PyExc).

(** What the background thread leaves behind, in order. *)
Inductive Event : Type :=
| EvLog (level msg : string)
| EvWorkCalled
| EvOnCompleteCalled (slot_state : MaintenanceState).

(** The work function is given [stop_check], the closure reading the
    slot's stop flag, and ends in some outcome. *)
Definition ServiceMethod : Type := (unit -> bool) -> WorkOutcome.

(** The completion callback takes no argument; its outcome may depend on
    what it observes of the slot ([_state], [_result]) when called. *)
Definition OnComplete : Type :=
  MaintenanceState -> option MaintenanceResult -> CallbackOutcome.

(** The [threading.Thread] created by [start_action]: its target's
    arguments, and whether it has yet to finish. *)
Record Thread := mkThread {
  t_action_name : string;
  t_service_method : ServiceMethod;
  t_on_complete : option OnComplete;
  t_alive : bool
}.

Record MaintenanceRunner := mkRunner {
  _state : MaintenanceState;
  _result : option MaintenanceResult;
  _thread : option Thread;
  _stop_requested : bool
}.

Definition __init__ : MaintenanceRunner := mkRunner IDLE None None false.

(** The [is_running] property. *)
Definition is_running (self : MaintenanceRunner) : bool :=
  state_eqb (_state self) RUNNING.

(** [start_action].  [sibling_is_running] is what
    [get_operation_runner().is_running] answers; [now] is
    [datetime.now()].  Returns the boolean result, the slot afterwards and
    the log lines written. *)
Definition start_action (sibling_is_running : bool) (now : Z)
    (action_name : string) (service_method : ServiceMethod)
    (file_count : Z) (on_complete : option OnComplete)
    (self : MaintenanceRunner) : bool * MaintenanceRunner * list Event :=
  if sibling_is_running then
    (false, self,
     [EvLog "INFO" "Maintenance action blocked - PlexCache operation in progress"])
  else if state_eqb (_state self) RUNNING then
    (false, self,
     [EvLog "INFO" "Maintenance action blocked - another maintenance action in progress"])
  else
    let display :=
      default "Running maintenance action..." (ACTION_DISPLAY !! action_name) in
    let display := format_count display file_count in
    let result :=
      mkResult RUNNING action_name display (Some now) None 0 None None
        file_count in
    let thread := mkThread action_name service_method on_complete true in
    (true, mkRunner RUNNING (Some result) (Some thread) false,
     [EvLog "INFO"
        ("Maintenance action started: " +:+ action_name +:+ " ("
         +:+ Py.str_of_int file_count +:+ " files)")]).

Definition stop_action (self : MaintenanceRunner)
  : bool * MaintenanceRunner * list Event :=
  if negb (state_eqb (_state self) RUNNING) then (false, self, [])
  else
    (true, mkRunner (_state self) (_result self) (_thread self) true,
     [EvLog "INFO" "Maintenance action stop requested"]).

Definition dismiss (self : MaintenanceRunner) : MaintenanceRunner :=
  if state_eqb (_state self) COMPLETED || state_eqb (_state self) FAILED then
    mkRunner IDLE
      (match _result self with
       | Some r => Some (set_state IDLE r)
       | None => None
       end)
      (_thread self) (_stop_requested self)
  else self.

(** Truth value of [error_message] in [if error_message:]. *)
Definition truthy (error_message : option string) : bool :=
  match error_message with
  | Some EmptyString => false
  | Some _ => true
  | None => false
  end.

(** The [with self._lock:] block in the [finally] clause of [_run_action];
    [None] when [self._result] is [None] and the first assignment raises
    [AttributeError]. *)
Definition record_outcome (now duration : Z)
    (action_result : option ActionResult) (error_message : option string)
    (self : MaintenanceRunner) : option MaintenanceRunner :=
  match _result self with
  | None => None
  | Some r =>
      let r := set_completed_at (Some now) r in
      let r := set_duration_seconds duration r in
      let r := set_action_result action_result r in
      if truthy error_message then
        let r := set_state FAILED r in
        let r := set_error_message error_message r in
        Some (mkRunner FAILED (Some r) (_thread self) (_stop_requested self))
      else
        let r := set_state COMPLETED r in
        Some (mkRunner COMPLETED (Some r) (_thread self) (_stop_requested self))
  end.

(** The [try ... except Exception] part of [_run_action]: the values of
    [action_result] and [error_message] on leaving it, the events so far,
    and the exception still in flight when the work raised one that is not
    an [Exception]. *)
Definition try_work (action_name : string) (service_method : ServiceMethod)
    (self : MaintenanceRunner)
  : option ActionResult * option string * list Event * option PyExc :=
  match service_method (fun _ => _stop_requested self) with
  | Returned v =>
      (v, None,
       [EvWorkCalled;
        EvLog "INFO"
          ((if _stop_requested self
            then "Maintenance action stopped by user: "
            else "Maintenance action completed: ") +:+ action_name)],
       None)
  | Raised e =>
      if exc_is_Exception e then
        (None, Some (exc_str e),
         [EvWorkCalled;
          EvLog "ERROR" ("Maintenance action failed: " +:+ action_name)],
         None)
      else (None, None, [EvWorkCalled], Some e)
  end.

(** [_run_action], the thread's target.  [start_time] and [end_time] are
    the two readings of [time.time()], [now] is [datetime.now()] in the
    [finally] clause.  Returns the slot afterwards, the events in order,
    and the exception that leaves the function, if any. *)
Definition _run_action (start_time end_time now : Z)
    (action_name : string) (service_method : ServiceMethod)
    (on_complete : option OnComplete) (self : MaintenanceRunner)
  : MaintenanceRunner * list Event * option PyExc :=
  let '(action_result, error_message, ev1, pending) :=
    try_work action_name service_method self in
  (* finally *)
  let duration := end_time - start_time in
  match record_outcome now duration action_result error_message self with
  | None =>
      (self, ev1,
       Some (AttributeError "'NoneType' object has no attribute 'completed_at'"))
  | Some self' =>
      match on_complete with
      | Some callback =>
          match callback (_state self') (_result self') with
          | CbReturned =>
              (self', ev1 ++ [EvOnCompleteCalled (_state self')], pending)
          | CbRaised e =>
              if exc_is_Exception e then
                (self',
                 ev1 ++ [EvOnCompleteCalled (_state self');
                         EvLog "ERROR"
                           ("on_complete callback failed: " +:+ exc_str e)],
                 pending)
              else
                (self', ev1 ++ [EvOnCompleteCalled (_state self')], Some e)
          end
      | None => (self', ev1, pending)
      end
  end.

(** Values stored in the status dictionary.  [VIso t] is
    [t.isoformat()], [VRound1 d] is [round(d, 1)]. *)
Inductive Value : Type :=
| VNone
| VBool (b : bool)
| VInt (n : Z)
| VStr (s : string)
| VIso (t : Z)
| VRound1 (d : Z)
| VList (l : list string).

Definition iso_or_none (t : option Z) : Value :=
  match t with
  | Some t => VIso t
  | None => VNone
  end.

Definition str_or_none (s : option string) : Value :=
  match s with
  | Some s => VStr s
  | None => VNone
  end.

Definition idle_status : gmap string Value :=
  {[ "state" := VStr (value IDLE); "is_running" := VBool false ]}.

Definition get_status_dict (self : MaintenanceRunner) : gmap string Value :=
  match _result self with
  | None => idle_status
  | Some result =>
      if state_eqb (_state self) IDLE then idle_status
      else
        let status : gmap string Value :=
          {[ "state" := VStr (value (state result));
             "is_running" := VBool (state_eqb (state result) RUNNING);
             "action_name" := VStr (action_name result);
             "action_display" := VStr (action_display result);
             "started_at" := iso_or_none (started_at result);
             "completed_at" := iso_or_none (completed_at result);
             "duration_seconds" := VRound1 (duration_seconds result);
             "file_count" := VInt (file_count result);
             "error_message" := str_or_none (error_message result) ]} in
        match action_result result with
        | Some ar =>
            <["errors" := VList (errors ar)]>
            (<["affected_count" := VInt (affected_count ar)]>
            (<["result_success" := VBool (success ar)]>
            (<["result_message" := VStr (message ar)]> status)))
        | None => status
        end
  end.

(** *** The slot as a state machine *)

(** The calls a client can make, and the background thread finishing.  Each
    is one step: a call runs to its end, and the thread's [finally] clause
    and callback run, before the next call is looked at. *)
Inductive Op : Type :=
| StartAction (sibling_is_running : bool) (now : Z) (action_name : string)
    (service_method : ServiceMethod) (file_count : Z)
    (on_complete : option OnComplete)
| StopAction
| Dismiss
| WorkerFinishes (start_time end_time now : Z).

Definition mark_finished (self : MaintenanceRunner) : MaintenanceRunner :=
  mkRunner (_state self) (_result self)
    (match _thread self with
     | Some t =>
         Some (mkThread (t_action_name t) (t_service_method t)
                 (t_on_complete t) false)
     | None => None
     end)
    (_stop_requested self).

(** The thread that has yet to finish, if there is one. *)
Definition live_thread (self : MaintenanceRunner) : option Thread :=
  match _thread self with
  | Some t => if t_alive t then Some t else None
  | None => None
  end.

Definition apply_op (op : Op) (self : MaintenanceRunner) : MaintenanceRunner :=
  match op with
  | StartAction sib now name method count cb =>
      (start_action sib now name method count cb self).1.2
  | StopAction => (stop_action self).1.2
  | Dismiss => dismiss self
  | WorkerFinishes start_time end_time now =>
      match live_thread self with
      | Some t =>
          mark_finished
            (_run_action start_time end_time now (t_action_name t)
               (t_service_method t) (t_on_complete t) self).1.1
      | None => self
      end
  end.

(** The slot after a sequence of operations, oldest first. *)
Definition run_ops (ops : list Op) (self : MaintenanceRunner)
  : MaintenanceRunner :=
  foldl (fun r op => apply_op op r) self ops.

End Runner.

(* ===================================================================== *)
(** ** Notions used to state the properties *)
(* ===================================================================== *)

(** "[s] starts with [p]", stated without reference to the code. *)
Definition starts_with (s p : string) : Prop := exists suffix, s = p +:+ suffix.

(** The first path component of a relative path: its text up to the first
    slash. *)
Fixpoint first_component (s : string) : string :=
  match s with
  | EmptyString => EmptyString
  | String a s' =>
      if Ascii.eqb a "/" then EmptyString else String a (first_component s')
  end.

(** The share name of a path under the union-mount root: the path component
    immediately following ["/mnt/user/"]. *)
Definition share_name_of (path : string) : string :=
  first_component (Py.slice_from (String.length "/mnt/user/") path).


(** The mountpoint and filesystem type of a mount-table line: its second
    and third whitespace-separated fields. *)
Definition mount_entry (line : string) : option (string * string) :=
  match Py.split_ws line with
  | _ :: mountpoint :: fs_type :: _ => Some (mountpoint, fs_type)
  | _ => None
  end.




(** A step of the copy fails with the operating system's message [msg]:
    the source stat, the content copy, the ownership restore or the
    permission change (and, when verbose, the stat of the destination).
    Each step is looked at in the world its predecessors left. *)
Inductive step_fails {W : Type} (os : SystemUtils.OSOps W)
    (self : SystemUtils.FileUtils) (src dest : string) (verbose : bool)
    (w : W) : string -> Prop :=
| source_stat_fails msg w1 :
    SystemUtils.is_linux self = true ->
    SystemUtils.os_stat os src w = (SystemUtils.OSFail msg, w1) ->
    step_fails os self src dest verbose w msg
| content_copy_fails st w1 msg w2 :
    SystemUtils.is_linux self = true ->
    SystemUtils.os_stat os src w = (SystemUtils.OSOk st, w1) ->
    SystemUtils.shutil_copy2 os src dest w1 = (SystemUtils.OSFail msg, w2) ->
    step_fails os self src dest verbose w msg
| ownership_restore_fails st w1 w2 msg w3 :
    SystemUtils.is_linux self = true ->
    SystemUtils.os_stat os src w = (SystemUtils.OSOk st, w1) ->
    SystemUtils.shutil_copy2 os src dest w1 = (SystemUtils.OSOk tt, w2) ->
    SystemUtils.os_chown os dest (SystemUtils.st_uid st) (SystemUtils.st_gid st) w2
      = (SystemUtils.OSFail msg, w3) ->
    step_fails os self src dest verbose w msg
| permission_change_fails st w1 w2 w3 msg w4 :
    SystemUtils.is_linux self = true ->
    SystemUtils.os_stat os src w = (SystemUtils.OSOk st, w1) ->
    SystemUtils.shutil_copy2 os src dest w1 = (SystemUtils.OSOk tt, w2) ->
    SystemUtils.os_chown os dest (SystemUtils.st_uid st) (SystemUtils.st_gid st) w2
      = (SystemUtils.OSOk tt, w3) ->
    SystemUtils.os_chmod os dest (SystemUtils.permissions self)
      (SystemUtils.os_umask os 0 w3).2 = (SystemUtils.OSFail msg, w4) ->
    step_fails os self src dest verbose w msg
| verbose_stat_fails st w1 w2 w3 w4 msg w5 :
    SystemUtils.is_linux self = true ->
    verbose = true ->
    SystemUtils.os_stat os src w = (SystemUtils.OSOk st, w1) ->
    SystemUtils.shutil_copy2 os src dest w1 = (SystemUtils.OSOk tt, w2) ->
    SystemUtils.os_chown os dest (SystemUtils.st_uid st) (SystemUtils.st_gid st) w2
      = (SystemUtils.OSOk tt, w3) ->
    SystemUtils.os_chmod os dest (SystemUtils.permissions self)
      (SystemUtils.os_umask os 0 w3).2 = (SystemUtils.OSOk tt, w4) ->
    SystemUtils.os_stat os dest
      (SystemUtils.os_umask os (SystemUtils.os_umask os 0 w3).1 w4).2
      = (SystemUtils.OSFail msg, w5) ->
    step_fails os self src dest verbose w msg
| plain_copy_fails msg w1 :
    SystemUtils.is_linux self = false ->
    SystemUtils.shutil_copy2 os src dest w = (SystemUtils.OSFail msg, w1) ->
    step_fails os self src dest verbose w msg.


(** The slot's state is one of the two terminal states. *)
Definition terminal (s : Runner.MaintenanceState) : Prop :=
  s = Runner.COMPLETED \/ s = Runner.FAILED.


(** The stored result record, when there is one, carries the slot's own
    state. *)
Definition result_agrees (r : Runner.MaintenanceRunner) : Prop :=
  forall res, Runner._result r = Some res -> Runner.state res = Runner._state r.

(** A slot that is not idle has a result record. *)
Definition busy_has_result (r : Runner.MaintenanceRunner) : Prop :=
  Runner._state r <> Runner.IDLE -> is_Some (Runner._result r).

(** *** Sample data *)

(** An operating system in which nobody holds the lock yet. *)
Definition lock_os0 : SystemUtils.LockOS :=
  SystemUtils.mkLockOS None 3 false EmptyString 0.

(** A work function that raises an exception carrying no message, as
    [raise ValueError()] does. *)
Definition raises_without_message : Runner.ServiceMethod :=
  fun _ => Runner.Raised (mkExc "ValueError" true EmptyString).

(** A work function that returns a result. *)
Definition moves_three_files : Runner.ServiceMethod :=
  fun _ => Runner.Returned
             (Some (Runner.mkActionResult true "Moved 3 file(s)" 3 [])).


(** A slot with a maintenance action under way, started from the initial
    slot at time 100. *)
Definition started_slot (method : Runner.ServiceMethod)
    (on_complete : option Runner.OnComplete) : Runner.MaintenanceRunner :=
  (Runner.start_action false 100 "sync-to-array" method 3 on_complete
     Runner.__init__).1.2.

(** A host on which [df] cannot be run and whose mount table lists a ZFS
    dataset mounted at [/mnt/plex/plex_media]. *)
Definition sample_host : SystemUtils.Host :=
  SystemUtils.mkHost
    (fun _ => SystemUtils.RunOSError "[Errno 2] No such file or directory: 'df'")
    (SystemUtils.MountsLines
       ["rootfs / rootfs rw 0 0";
        "plex/plex_media /mnt/plex/plex_media zfs rw,xattr,posixacl 0 0"]).

(** An operating system that logs its calls and in which [chown] is
    permitted or not. *)
Definition sample_os (chown_permitted : bool) : SystemUtils.OSOps (list string) :=
  SystemUtils.mkOSOps (list string)
    (fun path w =>
       (SystemUtils.OSOk (SystemUtils.mkStat 99 100 33188), w ++ ["stat"]))
    (fun src dest w => (SystemUtils.OSOk tt, w ++ ["copy2"]))
    (fun path uid gid w =>
       if chown_permitted then (SystemUtils.OSOk tt, w ++ ["chown"])
       else (SystemUtils.OSFail "[Errno 1] Operation not permitted", w))
    (fun path mode w => (SystemUtils.OSOk tt, w ++ ["chmod"]))
    (fun mask w => (18, w ++ ["umask"])).

(* ===================================================================== *)
(** ** system_utils.py: SystemDetector and the other FileUtils methods *)
(* ===================================================================== *)

Module Detector.

(** The table local to [_detect_unraid]. *)
Definition os_info : gmap string (option string) :=
  {[ "Linux" := Some "/mnt/user0/"; "Darwin" := None; "Windows" := None ]}.

(** [_detect_unraid]: [os_info.get(self.os_name)] is [None] for a name that
    is missing as well as for one mapped to [None]; a path counts for
    [if unraid_path] when it is not the empty string. *)
Definition _detect_unraid (os_name : string) (exists_ : string -> bool) : bool :=
  match os_info !! os_name with
  | Some (Some unraid_path) =>
      if String.eqb unraid_path EmptyString then false else exists_ unraid_path
  | _ => false
  end.

Definition _detect_docker (exists_ : string -> bool) : bool :=
  exists_ "/.dockerenv".

Record SystemDetector := mkDetector {
  os_name : string;
  is_linux : bool;
  is_unraid : bool;
  is_docker : bool
}.

(** [SystemDetector.__init__], given what [platform.system()] answers and
    what [os.path.exists] answers for each path. *)
Definition __init__ (platform_system : string) (exists_ : string -> bool)
  : SystemDetector :=
  mkDetector platform_system
    (negb (String.eqb platform_system "Windows"))
    (_detect_unraid platform_system exists_)
    (_detect_docker exists_).

End Detector.

Module FileOps.

Notation "x <- m ;; k" := (SystemUtils.bind m (fun x => k))
  (at level 100, m at next level, right associativity).
Notation "m ;;; k" := (SystemUtils.bind m (fun _ => k))
  (at level 100, right associativity).

Definition FileNotFoundError (msg : string) : PyExc :=
  mkExc "FileNotFoundError" true msg.
Definition NotADirectoryError (msg : string) : PyExc :=
  mkExc "NotADirectoryError" true msg.
Definition PermissionError (msg : string) : PyExc :=
  mkExc "PermissionError" true msg.

Record statvfs_result := mkStatvfs {
  f_bfree : Z;
  f_blocks : Z;
  f_frsize : Z
}.

(** The further operating-system calls of [FileUtils].  The three tests of
    [os.path] and [os.access] only look at the world and never raise;
    [os_makedirs] is [os.makedirs(path, exist_ok=True)]. *)
Record FsOps (W : Type) := mkFsOps {
  base : SystemUtils.OSOps W;
  os_path_exists : string -> W -> bool;
  os_path_isdir : string -> W -> bool;
  os_access_W_OK : string -> W -> bool;
  os_makedirs : string -> W -> SystemUtils.OSResult unit * W;
  os_statvfs : string -> W -> SystemUtils.OSResult statvfs_result * W;
  os_path_getsize : string -> W -> SystemUtils.OSResult Z * W
}.
Arguments base {W} _.
Arguments os_path_exists {W} _ _ _.
Arguments os_path_isdir {W} _ _ _.
Arguments os_access_W_OK {W} _ _ _.
Arguments os_makedirs {W} _ _ _.
Arguments os_statvfs {W} _ _ _.
Arguments os_path_getsize {W} _ _ _.

(** A test of the world, as a computation. *)
Definition test {W} (f : W -> bool) : SystemUtils.M W bool :=
  fun w => (Ok (f w), w).

(** The value of the true division [num / den]: the float nearest to the
    exact quotient. *)
Record Quotient := mkQuotient {
  num : Z;
  den : Z
}.

(** [_convert_bytes_to_readable_size] *)
Definition _convert_bytes_to_readable_size (size_bytes : Z) : Quotient * string :=
  if size_bytes >=? 1024 ^ 4 then (mkQuotient size_bytes (1024 ^ 4), "TB")
  else if size_bytes >=? 1024 ^ 3 then (mkQuotient size_bytes (1024 ^ 3), "GB")
  else if size_bytes >=? 1024 ^ 2 then (mkQuotient size_bytes (1024 ^ 2), "MB")
  else (mkQuotient size_bytes 1024, "KB").

Section Methods.
Context {W : Type} (os : FsOps W).

Definition check_path_exists (path : string) : SystemUtils.M W unit :=
  e <- test (os_path_exists os path) ;;
  if negb e then
    SystemUtils.raise (FileNotFoundError ("Path " +:+ path +:+ " does not exist."))
  else
    d <- test (os_path_isdir os path) ;;
    if negb d then
      SystemUtils.raise
        (NotADirectoryError ("Path " +:+ path +:+ " is not a directory."))
    else
      a <- test (os_access_W_OK os path) ;;
      if negb a then
        SystemUtils.raise
          (PermissionError ("Path " +:+ path +:+ " is not writable."))
      else SystemUtils.ret tt.

Definition get_free_space (directory : string)
  : SystemUtils.M W (Quotient * string) :=
  e <- test (os_path_exists os directory) ;;
  if negb e then
    SystemUtils.raise
      (FileNotFoundError
         ("Invalid path, unable to calculate free space for: " +:+ directory
          +:+ "."))
  else
    stat <- SystemUtils.call (os_statvfs os directory) ;;
    let free_space_bytes := f_bfree stat * f_frsize stat in
    SystemUtils.ret (_convert_bytes_to_readable_size free_space_bytes).

Definition get_total_drive_size (directory : string) : SystemUtils.M W Z :=
  e <- test (os_path_exists os directory) ;;
  if negb e then
    SystemUtils.raise
      (FileNotFoundError
         ("Invalid path, unable to calculate drive size for: " +:+ directory
          +:+ "."))
  else
    stat <- SystemUtils.call (os_statvfs os directory) ;;
    SystemUtils.ret (f_blocks stat * f_frsize stat).

(** The [for file in files] loop of [get_total_size_of_files]: a file whose
    size cannot be read ([OSError]) is put on the skipped list. *)
Fixpoint total_size_loop (files : list string) (total_size_bytes : Z)
    (skipped_files : list string) (w : W) : Z * list string * W :=
  match files with
  | [] => (total_size_bytes, skipped_files, w)
  | file :: rest =>
      match os_path_getsize os file w with
      | (SystemUtils.OSOk size, w') =>
          total_size_loop rest (total_size_bytes + size) skipped_files w'
      | (SystemUtils.OSFail _, w') =>
          total_size_loop rest total_size_bytes (skipped_files ++ [file]) w'
      end
  end.

Definition get_total_size_of_files (files : list string)
  : SystemUtils.M W (Quotient * string) :=
  fun w =>
    let '(total_size_bytes, _, w') := total_size_loop files 0 [] w in
    (Ok (_convert_bytes_to_readable_size total_size_bytes), w').

Definition create_directory_with_permissions (self : SystemUtils.FileUtils)
    (path src_file_for_permissions : string) : SystemUtils.M W unit :=
  e <- test (os_path_exists os path) ;;
  if negb e then
    if SystemUtils.is_linux self then
      stat_info <-
        SystemUtils.call (SystemUtils.os_stat (base os) src_file_for_permissions) ;;
      let uid := SystemUtils.st_uid stat_info in
      let gid := SystemUtils.st_gid stat_info in
      original_umask <-
        SystemUtils.call_total (SystemUtils.os_umask (base os) 0) ;;
      SystemUtils.call (os_makedirs os path) ;;;
      SystemUtils.call (SystemUtils.os_chown (base os) path uid gid) ;;;
      SystemUtils.call
        (SystemUtils.os_chmod (base os) path (SystemUtils.permissions self)) ;;;
      SystemUtils.call_total (SystemUtils.os_umask (base os) original_umask) ;;;
      SystemUtils.ret tt
    else
      SystemUtils.call (os_makedirs os path) ;;;
      SystemUtils.ret tt
  else SystemUtils.ret tt.

End Methods.

End FileOps.

(* ===================================================================== *)
(** ** core/logging_config.py *)
(* ===================================================================== *)

Module Logging.

(** The numeric levels of the [logging] module, and the level this file
    adds. *)
Definition DEBUG : Z := 10.
Definition INFO : Z := 20.
Definition WARNING : Z := 30.
Definition ERROR : Z := 40.
Definition CRITICAL : Z := 50.
Definition SUMMARY : Z := WARNING + 1.

(** What the code reads of a [logging.LogRecord]; [msg] is the formatted
    message, [record.getMessage()]. *)
Record LogRecord := mkRecord {
  levelno : Z;
  levelname : string;
  msg : string
}.

(** *** VerboseMessageFilter *)

Definition DOWNGRADE_PATTERNS : list string :=
  ["Failed to parse"; "to datetime as timestamp"].

(** The [for pattern in self.DOWNGRADE_PATTERNS] loop of [filter]: [Some]
    when the loop returns, with the answer and the record as it then is. *)
Fixpoint filter_loop (patterns : list string) (effective_level : Z)
    (record : LogRecord) : option (bool * LogRecord) :=
  match patterns with
  | [] => None
  | pattern :: rest =>
      if Py.contains (msg record) pattern then
        if effective_level <=? DEBUG
        then Some (true, mkRecord DEBUG "DEBUG" (msg record))
        else Some (false, record)
      else filter_loop rest effective_level record
  end.

(** [VerboseMessageFilter.filter]; [effective_level] is the root logger's
    effective level.  Returns the answer and the record, which the filter
    may have changed. *)
Definition filter (effective_level : Z) (record : LogRecord)
  : bool * LogRecord :=
  if levelno record =? INFO then
    match filter_loop DOWNGRADE_PATTERNS effective_level record with
    | Some r => r
    | None => (true, record)
    end
  else (true, record).

(** *** Level names *)

(** The table local to [_set_log_level]. *)
Definition log_level_mapping : gmap string Z :=
  {[ "debug" := DEBUG; "info" := INFO; "warning" := WARNING;
     "error" := ERROR; "critical" := CRITICAL ]}.

(** [_set_log_level]: the level the root logger is set to. *)
Definition _set_log_level (log_level : string) : Z :=
  if String.eqb log_level EmptyString then INFO
  else
    let log_level := Py.lower log_level in
    match log_level_mapping !! log_level with
    | Some level => level
    | None => INFO
    end.

(** The table local to [_set_handler_level]. *)
Definition handler_level_mapping : gmap string Z :=
  {[ "debug" := DEBUG; "info" := INFO; "warning" := WARNING;
     "error" := ERROR; "critical" := CRITICAL; "summary" := SUMMARY ]}.

(** [_set_handler_level]: the level the handler is set to. *)
Definition _set_handler_level (level_str : string) : Z :=
  if String.eqb level_str EmptyString then ERROR
  else
    let level_str := Py.lower level_str in
    match handler_level_mapping !! level_str with
    | Some level => level
    | None => ERROR
    end.

(** *** Log file rotation *)

(** A log file found by the glob, with its modification time. *)
Record LogFile := mkLogFile {
  path : string;
  st_mtime : Z
}.

(** [list.sort(key=lambda x: x.stat().st_mtime)]: the sort is stable, files
    of equal age keep their relative order. *)
Fixpoint insert_by_mtime (x : LogFile) (sorted : list LogFile) : list LogFile :=
  match sorted with
  | [] => [x]
  | y :: rest =>
      if st_mtime x <=? st_mtime y then x :: y :: rest
      else y :: insert_by_mtime x rest
  end.

Fixpoint sort_by_mtime (files : list LogFile) : list LogFile :=
  match files with
  | [] => []
  | x :: rest => insert_by_mtime x (sort_by_mtime rest)
  end.

Definition IndexError (msg : string) : PyExc := mkExc "IndexError" true msg.

(** The [while len(existing_log_files) > self.max_log_files] loop.
    [os_remove] tells whether [os.remove] succeeds on a path or raises an
    [OSError] with the given message.  Returns the paths removed, the list
    as the loop leaves it, and the exception that ends the loop, if any. *)
Fixpoint remove_loop (max_log_files : Z) (os_remove : string -> option string)
    (existing_log_files : list LogFile)
  : list string * list LogFile * option PyExc :=
  if Z.of_nat (length existing_log_files) >? max_log_files then
    match existing_log_files with
    | [] => ([], [], Some (IndexError "pop from empty list"))
    | oldest :: rest =>
        match os_remove (path oldest) with
        | Some msg => ([], rest, Some (OSError msg))
        | None =>
            let '(removed, remaining, exc) :=
              remove_loop max_log_files os_remove rest in
            (path oldest :: removed, remaining, exc)
        end
    end
  else ([], existing_log_files, None).

(** [_clean_old_log_files], given the files the glob finds, in the order
    it finds them. *)
Definition _clean_old_log_files (max_log_files : Z)
    (os_remove : string -> option string) (globbed : list LogFile)
  : list string * list LogFile * option PyExc :=
  remove_loop max_log_files os_remove (sort_by_mtime globbed).

(** *** Notification handlers *)

Record NotificationConfig := mkNotificationConfig {
  notification_type : string;
  unraid_level : string;
  webhook_level : string;
  webhook_url : string
}.

Inductive Handler : Type :=
| UnraidHandler (level : Z)
| WebhookHandler (url : string) (level : Z).

(** [x in [a, b]] for strings. *)
Definition in_pair (x a b : string) : bool :=
  String.eqb x a || String.eqb x b.

(** [setup_notification_handlers]: the handlers added to the logger, in
    the order they are added. *)
Definition setup_notification_handlers (notification_config : NotificationConfig)
    (is_unraid is_docker : bool) : list Handler :=
  let notification_type := Py.lower (notification_type notification_config) in
  let notification_type :=
    if String.eqb notification_type "system" then
      if is_unraid && negb is_docker then "unraid" else EmptyString
    else if String.eqb notification_type "both" then
      if is_unraid && is_docker then "webhook" else notification_type
    else notification_type in
  (if in_pair notification_type "both" "unraid"
   then [UnraidHandler (_set_handler_level (unraid_level notification_config))]
   else [])
  ++
  (if in_pair notification_type "both" "webhook"
      && negb (String.eqb (webhook_url notification_config) EmptyString)
   then [WebhookHandler (webhook_url notification_config)
           (_set_handler_level (webhook_level notification_config))]
   else []).

(** *** Summary messages *)

(** The two fields of [LoggingManager] the summary uses. *)
Record Summary := mkSummary {
  summary_messages : list string;
  files_moved : bool
}.

(** As [LoggingManager.__init__] leaves them. *)
Definition summary_init : Summary := mkSummary [] false.

Definition add_summary_message (message : string) (self : Summary) : Summary :=
  if files_moved self
  then mkSummary (summary_messages self ++ [message]) (files_moved self)
  else mkSummary [message] true.

(** [sep.join(parts)] *)
Fixpoint join (sep : string) (parts : list string) : string :=
  match parts with
  | [] => EmptyString
  | [x] => x
  | x :: rest => x +:+ sep +:+ join sep rest
  end.

Definition newline_indent : string :=
  String (ascii_of_N 10) "  ".

(** [log_summary]: the message logged at level [SUMMARY], if any. *)
Definition log_summary (self : Summary) : option string :=
  match summary_messages self with
  | [] => None
  | [only] => Some only
  | messages => Some (newline_indent +:+ join newline_indent messages)
  end.

End Logging.

(* ===================================================================== *)
(** ** web/services/maintenance_runner.py: the table of async actions *)
(* ===================================================================== *)

Module RunnerTables.

(** Actions that should run asynchronously. *)
Definition ASYNC_ACTIONS : gset string :=
  {[ "protect-with-backup"; "sync-to-array"; "fix-with-backup";
     "restore-plexcached"; "delete-plexcached" ]}.

End RunnerTables.

(* ===================================================================== *)
(** ** Further notions and sample data *)
(* ===================================================================== *)

(** How the operating system treats the process umask, read off the world
    by [umask_of]: [os.umask] returns the mask in force and installs the new
    one, and no other call touches it. *)
Record UmaskLaws {W : Type} (os : SystemUtils.OSOps W) (umask_of : W -> Z)
  : Prop := mkUmaskLaws {
  umask_returns_old : forall m w, (SystemUtils.os_umask os m w).1 = umask_of w;
  umask_installs : forall m w, umask_of (SystemUtils.os_umask os m w).2 = m;
  stat_keeps_umask :
    forall p w, umask_of (SystemUtils.os_stat os p w).2 = umask_of w;
  copy2_keeps_umask :
    forall s d w, umask_of (SystemUtils.shutil_copy2 os s d w).2 = umask_of w;
  chown_keeps_umask :
    forall p u g w, umask_of (SystemUtils.os_chown os p u g w).2 = umask_of w;
  chmod_keeps_umask :
    forall p m w, umask_of (SystemUtils.os_chmod os p m w).2 = umask_of w
}.


(** [os.path.getsize] only reads. *)
Definition getsize_reads_only {W : Type} (os : FileOps.FsOps W) : Prop :=
  forall p w, (FileOps.os_path_getsize os p w).2 = w.

(** The size of a file as the total counts it: zero when it cannot be
    read. *)
Definition size_or_zero {W : Type} (os : FileOps.FsOps W) (w : W)
    (file : string) : Z :=
  match (FileOps.os_path_getsize os file w).1 with
  | SystemUtils.OSOk size => size
  | SystemUtils.OSFail _ => 0
  end.

Definition sum_sizes {W : Type} (os : FileOps.FsOps W) (w : W)
    (files : list string) : Z :=
  foldr Z.add 0 (map (size_or_zero os w) files).

(** An operating system whose world is the process umask: [chown] and
    [chmod] succeed or are refused as told, everything else succeeds. *)
Definition umask_os (chown_ok chmod_ok : bool) : SystemUtils.OSOps Z :=
  SystemUtils.mkOSOps Z
    (fun path w => (SystemUtils.OSOk (SystemUtils.mkStat 99 100 33188), w))
    (fun src dest w => (SystemUtils.OSOk tt, w))
    (fun path uid gid w =>
       if chown_ok then (SystemUtils.OSOk tt, w)
       else (SystemUtils.OSFail "[Errno 1] Operation not permitted", w))
    (fun path mode w =>
       if chmod_ok then (SystemUtils.OSOk tt, w)
       else (SystemUtils.OSFail "[Errno 1] Operation not permitted", w))
    (fun mask w => (w, mask)).

(** A file system on top of it: [/mnt/cache/tv] exists, [a.mkv] has 1536
    bytes, [b.mkv] has 512, no other size can be read. *)
Definition sample_fs (chown_ok chmod_ok : bool) : FileOps.FsOps Z :=
  FileOps.mkFsOps Z (umask_os chown_ok chmod_ok)
    (fun path w => String.eqb path "/mnt/cache/tv")
    (fun path w => String.eqb path "/mnt/cache/tv")
    (fun path w => String.eqb path "/mnt/cache/tv")
    (fun path w => (SystemUtils.OSOk tt, w))
    (fun path w => (SystemUtils.OSOk (FileOps.mkStatvfs 10 100 4096), w))
    (fun path w =>
       if String.eqb path "a.mkv" then (SystemUtils.OSOk 1536, w)
       else if String.eqb path "b.mkv" then (SystemUtils.OSOk 512, w)
       else (SystemUtils.OSFail "[Errno 2] No such file or directory", w)).

(** What the stored result looks like in each state of the slot, and when
    the background thread is alive. *)
Definition slot_wf (r : Runner.MaintenanceRunner) : Prop :=
  (is_Some (Runner.live_thread r) <-> Runner._state r = Runner.RUNNING)
  /\ match Runner._state r with
     | Runner.IDLE => True
     | Runner.RUNNING =>
         exists res,
           Runner._result r = Some res
           /\ Runner.state res = Runner.RUNNING
           /\ Runner.completed_at res = None
           /\ Runner.action_result res = None
           /\ Runner.error_message res = None
     | Runner.COMPLETED =>
         exists res,
           Runner._result r = Some res
           /\ Runner.state res = Runner.COMPLETED
           /\ is_Some (Runner.completed_at res)
           /\ Runner.error_message res = None
     | Runner.FAILED =>
         exists res msg,
           Runner._result r = Some res
           /\ Runner.state res = Runner.FAILED
           /\ is_Some (Runner.completed_at res)
           /\ Runner.action_result res = None
           /\ Runner.error_message res = Some msg
           /\ msg <> EmptyString
     end.

(** The state machine of the slot: from which state which operation leads
    to which state. *)
Inductive step_allowed
  : Runner.MaintenanceState -> Runner.Op -> Runner.MaintenanceState -> Prop :=
| start_accepted s now name method count cb :
    s <> Runner.RUNNING ->
    step_allowed s (Runner.StartAction false now name method count cb)
      Runner.RUNNING
| start_refused s sib now name method count cb :
    sib = true \/ s = Runner.RUNNING ->
    step_allowed s (Runner.StartAction sib now name method count cb) s
| stop_keeps_state s :
    step_allowed s Runner.StopAction s
| dismiss_terminal s :
    terminal s ->
    step_allowed s Runner.Dismiss Runner.IDLE
| dismiss_ignored s :
    ~ terminal s ->
    step_allowed s Runner.Dismiss s
| worker_finishes s' st en now :
    terminal s' ->
    step_allowed Runner.RUNNING (Runner.WorkerFinishes st en now) s'
| worker_absent s st en now :
    s <> Runner.RUNNING ->
    step_allowed s (Runner.WorkerFinishes st en now) s.

(** What a start records about the action: its name, display text, start
    time and file count. *)
Definition bookkeeping (r : Runner.MaintenanceRunner)
  : option (string * string * option Z * Z) :=
  (fun res => (Runner.action_name res, Runner.action_display res,
               Runner.started_at res, Runner.file_count res))
  <$> Runner._result r.

(** The start is one that [start_action] accepts on slot [r]. *)
Definition accepted_start (op : Runner.Op) (r : Runner.MaintenanceRunner)
  : Prop :=
  match op with
  | Runner.StartAction sib _ _ _ _ _ =>
      sib = false /\ Runner._state r <> Runner.RUNNING
  | _ => False
  end.

(** The nine entries of the snapshot of a slot that is not idle. *)
Definition base_status_keys : gset string :=
  {[ "state"; "is_running"; "action_name"; "action_display"; "started_at";
     "completed_at"; "duration_seconds"; "file_count"; "error_message" ]}.

(** The template has no brace. *)
Definition brace_free (s : string) : bool :=
  Py.char_free "{" s && Py.char_free "}" s.

(** The list is in order of modification time, oldest first. *)
Fixpoint oldest_first (files : list Logging.LogFile) : Prop :=
  match files with
  | [] => True
  | x :: rest =>
      Forall (fun y => Logging.st_mtime x <= Logging.st_mtime y) rest
      /\ oldest_first rest
  end.

(** [os.remove] never fails. *)
Definition removes_all : string -> option string := fun _ => None.

(** The logger gets an Unraid handler, a webhook handler. *)
Definition has_unraid_handler (handlers : list Logging.Handler) : Prop :=
  exists level, Logging.UnraidHandler level ∈ handlers.

Definition has_webhook_handler (handlers : list Logging.Handler) : Prop :=
  exists url level, Logging.WebhookHandler url level ∈ handlers.

(** The summary after a sequence of [add_summary_message] calls, oldest
    first. *)
Definition add_all (messages : list string) (self : Logging.Summary)
  : Logging.Summary :=
  foldl (fun s m => Logging.add_summary_message m s) self messages.

Example str_of_int_ex : Py.str_of_int 12 = "12" /\ Py.str_of_int 0 = "0" /\ Py.str_of_int (-3) = "-3".
Proof. repeat split; reflexivity. Qed.

Example split_ex : Py.split "/" (Py.rstrip "/" "/mnt/user/plex_media/tv//") = [EmptyString; "mnt"; "user"; "plex_media"; "tv"].
Proof. reflexivity. Qed.

Example split_ws_ex : Py.split_ws "plex/plex_media /mnt/plex/plex_media  zfs rw,xattr 0 0" = ["plex/plex_media"; "/mnt/plex/plex_media"; "zfs"; "rw,xattr"; "0"; "0"].
Proof. reflexivity. Qed.

Example gadp_ex : SystemUtils.get_array_direct_path {["/mnt/user/zpool"]} "/mnt/user/tv/show.mkv" = "/mnt/user0/tv/show.mkv".
Proof. vm_compute. reflexivity. Qed.


Example set_zfs_prefixes_ex :
  SystemUtils.get_array_direct_path
    (SystemUtils.set_zfs_prefixes {["/mnt/user/tank"]}
       SystemUtils._zfs_user_prefixes_initial)
    "/mnt/user/tank/tv/show.mkv"
  = "/mnt/user/tank/tv/show.mkv".
Proof. vm_compute. reflexivity. Qed.

Example detect_zfs_short_path_ex :
  SystemUtils.detect_zfs sample_host "/mnt/user/" = false
  /\ SystemUtils.detect_zfs sample_host "/mnt/disk1/plex_media" = false
  /\ SystemUtils.detect_zfs sample_host "/mnt/user/plex_media/" = true
  /\ SystemUtils.detect_zfs sample_host "/mnt/user/media" = false.
Proof. repeat split; reflexivity. Qed.

Example action_display_ex :
  Runner.action_display
  <$> Runner._result (started_slot moves_three_files None)
  = Some "Moving 3 file(s) to array..."
  /\ Runner.format_count "Running maintenance action..." 3
     = "Running maintenance action...".
Proof. split; vm_compute; reflexivity. Qed.

Example stop_then_finish_ex :
  let slot := Runner.run_ops
                [Runner.StartAction false 100 "sync-to-array"
                   moves_three_files 3 None;
                 Runner.StopAction;
                 Runner.WorkerFinishes 101 109 109]
                Runner.__init__ in
  Runner._state slot = Runner.COMPLETED
  /\ Runner._stop_requested slot = true
  /\ Runner.get_status_dict slot !! "duration_seconds" = Some (Runner.VRound1 8)
  /\ Runner.get_status_dict slot !! "affected_count" = Some (Runner.VInt 3).
Proof. vm_compute. repeat split; reflexivity. Qed.

Example release_clean_ex :
  let '(_, os1, h1) :=
    SystemUtils.acquire 4242 SystemUtils.no_faults lock_os0
      (SystemUtils.__init__ "/tmp/plexcache.lock") in
  let '(os2, h2) := SystemUtils.release SystemUtils.no_faults os1 h1 in
  SystemUtils.lock_file_content os1 = "4242"
  /\ SystemUtils.flock_holder os1 = Some (SystemUtils.HeldByFd 3)
  /\ h2 = SystemUtils.__init__ "/tmp/plexcache.lock"
  /\ SystemUtils.flock_holder os2 = None
  /\ SystemUtils.lock_file_exists os2 = false.
Proof. vm_compute. repeat split; reflexivity. Qed.

Example rotation_ex :
  Logging._clean_old_log_files 2 removes_all
    [Logging.mkLogFile "plexcache_log_20260103_0900.log" 300;
     Logging.mkLogFile "plexcache_log_20260101_0900.log" 100;
     Logging.mkLogFile "plexcache_log_20260102_0900.log" 200]
  = (["plexcache_log_20260101_0900.log"],
     [Logging.mkLogFile "plexcache_log_20260102_0900.log" 200;
      Logging.mkLogFile "plexcache_log_20260103_0900.log" 300],
     None).
Proof. reflexivity. Qed.

Example convert_ex :
  FileOps._convert_bytes_to_readable_size 0 = (FileOps.mkQuotient 0 1024, "KB")
  /\ FileOps._convert_bytes_to_readable_size (5 * 1024 ^ 3)
     = (FileOps.mkQuotient 5368709120 1073741824, "GB").
Proof. split; reflexivity. Qed.

Example notification_ex :
  Logging.setup_notification_handlers
    (Logging.mkNotificationConfig "Both" "warning" "SUMMARY"
       "https://example.org/hook") true true
  = [Logging.WebhookHandler "https://example.org/hook" 31]
  /\ Logging.setup_notification_handlers
       (Logging.mkNotificationConfig "system" "warning" "summary"
          "https://example.org/hook") true false
     = [Logging.UnraidHandler 30].
Proof. split; vm_compute; reflexivity. Qed.

Example summary_ex :
  Logging.log_summary
    (add_all ["Moved 2 files"; "Freed 3 GB"] Logging.summary_init)
  = Some (String (ascii_of_N 10)
            ("  Moved 2 files" +:+ String (ascii_of_N 10) "  Freed 3 GB")).
Proof. vm_compute. reflexivity. Qed.
(* ===================================================================== *)
(** ** Facts about the string primitives *)
(* ===================================================================== *)

Lemma startswith_iff (s p : string) : Py.startswith s p = true <-> starts_with s p.
Proof.
  unfold Py.startswith, starts_with. revert s.
  induction p as [|a p IH]; intros s; simpl.
  - split; [intros _; by exists s | intros _; by destruct s].
  - destruct s as [|b s]; simpl.
    + split; [done | intros [suf Hs]; discriminate].
    + destruct (ascii_dec a b) as [->|Hne].
      * rewrite IH. split; intros [suf Hs]; exists suf.
        -- simpl. by rewrite Hs.
        -- simpl in Hs. by injection Hs.
      * split; [done | intros [suf Hs]; simpl in Hs; injection Hs as Hab _; by destruct Hne].
Qed.

Lemma startswith_false_iff (s p : string) :
  Py.startswith s p = false <-> ~ starts_with s p.
Proof.
  rewrite <- startswith_iff. destruct (Py.startswith s p); split; congruence.
Qed.

Lemma slice_from_app (p suffix : string) :
  Py.slice_from (String.length p) (p +:+ suffix) = suffix.
Proof. induction p as [|a p IH]; simpl; [by destruct suffix | done]. Qed.

Lemma zfs_prefix_loop_Some path prefixes r :
  SystemUtils.zfs_prefix_loop path prefixes = Some r ->
  r = path /\ exists p, p ∈ prefixes /\ Py.startswith path p = true.
Proof.
  induction prefixes as [|p rest IH]; simpl; [done|].
  destruct (Py.startswith path p) eqn:Hp.
  - intros [= <-]. split; [done|]. exists p. split; [left | done].
  - intros H. destruct (IH H) as [-> (q & Hq & Hs)].
    split; [done|]. exists q. split; [by right | done].
Qed.

Lemma zfs_prefix_loop_None path prefixes :
  SystemUtils.zfs_prefix_loop path prefixes = None ->
  forall p, p ∈ prefixes -> Py.startswith path p = false.
Proof.
  induction prefixes as [|q rest IH]; simpl; intros H p Hin.
  - by apply elem_of_nil in Hin.
  - destruct (Py.startswith path q) eqn:Hq; [done|].
    apply elem_of_cons in Hin as [->|Hin]; [done | by apply IH].
Qed.

(* ===================================================================== *)
(** ** Path resolution *)
(* ===================================================================== *)

(** C1. [get_array_direct_path] is exactly the three-way case analysis of
    the contract: a path that does not start with ["/mnt/user/"] is returned
    unchanged; a path under ["/mnt/user/"] that starts with some prefix of
    the ZFS exception set is returned unchanged; any other path
    ["/mnt/user/" ++ suffix] becomes ["/mnt/user0/" ++ suffix]. *)
Theorem get_array_direct_path_cases (zfs : gset string) (path : string) :
  (~ starts_with path "/mnt/user/" ->
     SystemUtils.get_array_direct_path zfs path = path)
  /\ (starts_with path "/mnt/user/" ->
      (exists p, p ∈ zfs /\ starts_with path p) ->
      SystemUtils.get_array_direct_path zfs path = path)
  /\ (forall suffix, path = "/mnt/user/" +:+ suffix ->
      (forall p, p ∈ zfs -> ~ starts_with path p) ->
      SystemUtils.get_array_direct_path zfs path = "/mnt/user0/" +:+ suffix).
Proof.
  unfold SystemUtils.get_array_direct_path, SystemUtils.user_root,
    SystemUtils.user0_root.
  split; [|split].
  - intros Hn. apply startswith_false_iff in Hn. by rewrite Hn.
  - intros Hroot (p & Hp & Hs). apply startswith_iff in Hroot. rewrite Hroot.
    destruct (SystemUtils.zfs_prefix_loop _ _) as [r|] eqn:Hloop.
    + by apply zfs_prefix_loop_Some in Hloop as [-> _].
    + exfalso. apply startswith_iff in Hs.
      rewrite (zfs_prefix_loop_None _ _ Hloop p) in Hs; [done|].
      by apply elem_of_elements.
  - intros suffix Hpath Hnone.
    assert (Hroot : Py.startswith path "/mnt/user/" = true).
    { apply startswith_iff. by exists suffix. }
    rewrite Hroot.
    destruct (SystemUtils.zfs_prefix_loop _ _) as [r|] eqn:Hloop.
    + apply zfs_prefix_loop_Some in Hloop as [_ (p & Hp & Hs)].
      exfalso. apply (Hnone p); [by apply elem_of_elements|].
      by apply startswith_iff.
    + subst path. by rewrite (slice_from_app "/mnt/user/" suffix).
Qed.

Lemma get_array_direct_path_cases_witness :
  SystemUtils.get_array_direct_path {["/mnt/user/tank"]} "/mnt/disk1/tv/a.mkv"
    = "/mnt/disk1/tv/a.mkv"
  /\ SystemUtils.get_array_direct_path {["/mnt/user/tank"]} "/mnt/user/tank/a.mkv"
    = "/mnt/user/tank/a.mkv"
  /\ SystemUtils.get_array_direct_path {["/mnt/user/tank"]} "/mnt/user/tv/a.mkv"
    = "/mnt/user0/tv/a.mkv".
Proof.
  split; [|split].
  - apply (proj1 (get_array_direct_path_cases {["/mnt/user/tank"]}
                    "/mnt/disk1/tv/a.mkv")).
    apply (proj1 (startswith_false_iff _ _)). reflexivity.
  - apply (proj1 (proj2 (get_array_direct_path_cases {["/mnt/user/tank"]}
                           "/mnt/user/tank/a.mkv"))).
    + apply (proj1 (startswith_iff _ _)). reflexivity.
    + exists "/mnt/user/tank". split; [by apply elem_of_singleton|].
      apply (proj1 (startswith_iff _ _)). reflexivity.
  - apply (proj2 (proj2 (get_array_direct_path_cases {["/mnt/user/tank"]}
                           "/mnt/user/tv/a.mkv")) "tv/a.mkv"); [reflexivity|].
    intros p Hp. apply elem_of_singleton in Hp as ->.
    apply (proj1 (startswith_false_iff _ _)). reflexivity.
Defined.

(* ===================================================================== *)
(** ** ZFS detection *)
(* ===================================================================== *)

Lemma append_nil_l (t : string) : EmptyString +:+ t = t.
Proof. reflexivity. Qed.

Lemma append_cons (a : ascii) (s t : string) :
  String a s +:+ t = String a (s +:+ t).
Proof. reflexivity. Qed.


Ltac str_simpl := rewrite ?append_cons, ?append_nil_l; simpl.

Section StringLemmas.
Variable c : ascii.

Lemma endswith_unfold (s suf : string) :
  Py.endswith s suf =
  if String.eqb s suf then true
  else match s with
       | EmptyString => false
       | String _ s' => Py.endswith s' suf
       end.
Proof. by destruct s. Qed.

Lemma endswith_iff (s suf : string) :
  Py.endswith s suf = true <-> exists pre, s = pre +:+ suf.
Proof.
  induction s as [|a s IH]; rewrite endswith_unfold.
  - destruct (String.eqb_spec EmptyString suf) as [<-|Hne].
    + split; [intros _; by exists EmptyString | done].
    + split; [done|]. intros [pre Hpre]. destruct pre; simpl in Hpre; [done|].
      discriminate.
  - destruct (String.eqb_spec (String a s) suf) as [<-|Hne].
    + split; [intros _; by exists EmptyString | done].
    + rewrite IH. split.
      * intros [pre ->]. by exists (String a pre).
      * intros [pre Hpre]. destruct pre as [|b pre]; simpl in Hpre; [done|].
        injection Hpre as _ ->. by exists pre.
Qed.

Lemma split_nonempty (s : string) : Py.split c s <> [].
Proof.
  destruct s as [|a s]; simpl; [done|].
  destruct (Ascii.eqb a c); [done|]. by destruct (Py.split c s).
Qed.


Lemma split_char_free (s : string) :
  Forall (fun x => Py.char_free c x = true) (Py.split c s).
Proof.
  induction s as [|a s IH]; simpl.
  - by repeat constructor.
  - destruct (Ascii.eqb a c) eqn:Hac.
    + by constructor.
    + destruct (Py.split c s) as [|h t].
      * constructor; [|done]. simpl. by rewrite Hac.
      * inversion IH; subst. constructor; [|done]. simpl. by rewrite Hac.
Qed.

Lemma split_app_sep (pre x : string) :
  Py.split c (pre +:+ String c x) = Py.split c pre ++ Py.split c x.
Proof.
  induction pre as [|a pre IH]; str_simpl.
  - by rewrite Ascii.eqb_refl.
  - destruct (Ascii.eqb a c); [by rewrite IH|].
    rewrite IH. pose proof (split_nonempty pre) as Hn.
    by destruct (Py.split c pre).
Qed.




Lemma rstrip_app (p r : string) :
  Py.rstrip c (p +:+ r) =
  match Py.rstrip c r with
  | EmptyString => Py.rstrip c p
  | t => p +:+ t
  end.
Proof.
  induction p as [|a p IH]; str_simpl.
  - by destruct (Py.rstrip c r).
  - rewrite IH. destruct (Py.rstrip c r) as [|b t]; [done|].
    by destruct p.
Qed.

Lemma rstrip_no_trailing (s pre : string) :
  Py.rstrip c s <> pre +:+ String c EmptyString.
Proof.
  revert pre. induction s as [|a s IH]; intros pre; simpl.
  - by destruct pre.
  - destruct (Py.rstrip c s) as [|b t] eqn:Hr.
    + destruct (Ascii.eqb_spec a c) as [->|Hne].
      * by destruct pre.
      * destruct pre as [|a' pre]; str_simpl; [by intros [= ->]|].
        by destruct pre.
    + destruct pre as [|a' pre]; str_simpl; [done|].
      intros [= _ Ht]. by apply (IH pre).
Qed.

End StringLemmas.


Lemma head_split (s : string) :
  exists t, Py.split "/" s = first_component s :: t.
Proof.
  induction s as [|a s [t IH]]; simpl; [by exists []|].
  destruct (Ascii.eqb a "/"); [by eexists|]. rewrite IH. by eexists.
Qed.

Lemma rstrip_empty_first_component (r : string) :
  Py.rstrip "/" r = EmptyString -> first_component r = EmptyString.
Proof.
  destruct r as [|a r]; simpl; [done|].
  destruct (Py.rstrip "/" r); [|done]. by destruct (Ascii.eqb a "/").
Qed.

Lemma first_component_rstrip (r : string) :
  Py.rstrip "/" r <> EmptyString ->
  first_component (Py.rstrip "/" r) = first_component r.
Proof.
  induction r as [|a r IH]; [done|]. simpl.
  destruct (Py.rstrip "/" r) as [|b t] eqn:Hr.
  - destruct (Ascii.eqb a "/") eqn:Ha; [done|]. intros _. simpl. rewrite Ha.
    by rewrite (rstrip_empty_first_component r Hr).
  - intros _. simpl. destruct (Ascii.eqb a "/"); [done|]. by rewrite <- IH.
Qed.


Lemma line_is_zfs_share_iff (share line : string) :
  SystemUtils.line_is_zfs_share share line = true
  <-> exists mountpoint,
        mount_entry line = Some (mountpoint, "zfs")
        /\ Py.endswith (Py.rstrip "/" mountpoint) ("/" +:+ share) = true.
Proof.
  unfold SystemUtils.line_is_zfs_share, mount_entry.
  destruct (Py.split_ws line) as [|f0 [|f1 [|f2 rest]]]; simpl;
    try (split; [done | by intros (? & ? & ?)]).
  rewrite andb_true_iff, String.eqb_eq. split.
  - intros [-> He]. by exists f1.
  - intros (mp & [= -> ->] & He). done.
Qed.

Lemma mounts_loop_iff (share : string) (lines : list string) :
  SystemUtils.mounts_loop share lines = true
  <-> exists line, line ∈ lines
                   /\ SystemUtils.line_is_zfs_share share line = true.
Proof.
  induction lines as [|l rest IH]; simpl.
  - split; [done|]. intros (line & Hin & _). by apply elem_of_nil in Hin.
  - destruct (SystemUtils.line_is_zfs_share share l) eqn:Hl.
    + split; [|done]. intros _. exists l. split; [left | done].
    + rewrite IH. split.
      * intros (line & Hin & H). exists line. split; [by right | done].
      * intros (line & Hin & H). apply elem_of_cons in Hin as [->|Hin].
        -- congruence.
        -- by exists line.
Qed.

(** The components of a path under ["/mnt/user/"], as [detect_zfs] splits
    it. *)
Lemma share_parts (rest : string) :
  let parts := Py.split "/" (Py.rstrip "/" ("/mnt/user/" +:+ rest)) in
  (Py.rstrip "/" rest = EmptyString /\ length parts = 3%nat)
  \/ (Py.rstrip "/" rest <> EmptyString
      /\ (4 <=? length parts)%nat = true
      /\ parts !! 3%nat = Some (first_component rest)).
Proof.
  intros parts. subst parts. rewrite rstrip_app.
  destruct (Py.rstrip "/" rest) as [|a t] eqn:Hr.
  - left. split; reflexivity.
  - right. split; [done|].
    change ("/mnt/user/" +:+ String a t) with ("/mnt/user" +:+ String "/" (String a t)).
    rewrite split_app_sep.
    destruct (head_split (String a t)) as [tl Htl]. rewrite Htl.
    rewrite <- Hr, first_component_rstrip by (by rewrite Hr).
    split; reflexivity.
Qed.





(* ===================================================================== *)
(** ** File copy *)
(* ===================================================================== *)

Section CopyFacts.
Context {W : Type} (os : SystemUtils.OSOps W).
Variables (self : SystemUtils.FileUtils) (src dest : string) (verbose : bool).

Local Ltac run_copy :=
  unfold SystemUtils.copy_file_with_permissions, SystemUtils.try_except,
    SystemUtils.bind, SystemUtils.call, SystemUtils.call_total,
    SystemUtils.ret, SystemUtils.raise.

Lemma copy_raises_on_failure (w : W) (msg : string) :
  step_fails os self src dest verbose w msg ->
  (SystemUtils.copy_file_with_permissions os self src dest verbose w).1
  = Raise (RuntimeError ("Error copying file: " +:+ msg)).
Proof.
  intros H. run_copy.
  destruct H as [msg w1 Hl H1 | st w1 msg w2 Hl H1 H2
                | st w1 w2 msg w3 Hl H1 H2 H3
                | st w1 w2 w3 msg w4 Hl H1 H2 H3 H4
                | st w1 w2 w3 w4 msg w5 Hl Hv H1 H2 H3 H4 H5
                | msg w1 Hl H1 ]; rewrite Hl.
  - by rewrite H1.
  - by rewrite H1, H2.
  - by rewrite H1, H2, H3.
  - rewrite H1, H2, H3. destruct (SystemUtils.os_umask os 0 w3) as [u w3'].
    simpl in H4. by rewrite H4.
  - rewrite H1, H2, H3. destruct (SystemUtils.os_umask os 0 w3) as [u w3'].
    simpl in H4, H5. rewrite H4.
    destruct (SystemUtils.os_umask os u w4) as [u' w4']. simpl in H5.
    subst verbose. by rewrite H5.
  - by rewrite H1.
Qed.

Lemma copy_succeeds_or_step_fails (w : W) :
  (SystemUtils.copy_file_with_permissions os self src dest verbose w).1 = Ok 0
  \/ exists msg, step_fails os self src dest verbose w msg.
Proof.
  destruct (SystemUtils.is_linux self) eqn:Hl.
  - destruct (SystemUtils.os_stat os src w) as [[st|msg] w1] eqn:H1;
      [|right; exists msg; by eapply source_stat_fails].
    destruct (SystemUtils.shutil_copy2 os src dest w1) as [[[]|msg] w2] eqn:H2;
      [|right; exists msg; by eapply content_copy_fails].
    destruct (SystemUtils.os_chown os dest (SystemUtils.st_uid st)
                (SystemUtils.st_gid st) w2) as [[[]|msg] w3] eqn:H3;
      [|right; exists msg; by eapply ownership_restore_fails].
    destruct (SystemUtils.os_chmod os dest (SystemUtils.permissions self)
                (SystemUtils.os_umask os 0 w3).2) as [[[]|msg] w4] eqn:H4;
      [|right; exists msg; by eapply permission_change_fails].
    destruct verbose eqn:Hv.
    + destruct (SystemUtils.os_stat os dest
                  (SystemUtils.os_umask os (SystemUtils.os_umask os 0 w3).1 w4).2)
        as [[st'|msg] w5] eqn:H5;
        [|right; exists msg; by eapply verbose_stat_fails].
      left. run_copy. rewrite Hl, H1, H2, H3.
      destruct (SystemUtils.os_umask os 0 w3) as [u w3']. simpl in *.
      rewrite H4. destruct (SystemUtils.os_umask os u w4) as [u' w4'].
      simpl in *. by rewrite H5.
    + left. run_copy. rewrite Hl, H1, H2, H3.
      destruct (SystemUtils.os_umask os 0 w3) as [u w3']. simpl in *.
      rewrite H4. by destruct (SystemUtils.os_umask os u w4) as [u' w4'].
  - destruct (SystemUtils.shutil_copy2 os src dest w) as [[[]|msg] w1] eqn:H1;
      [|right; exists msg; by eapply plain_copy_fails].
    left. run_copy. by rewrite Hl, H1.
Qed.

End CopyFacts.

(** C9. [copy_file_with_permissions] signals a failure of any step (source
    stat, content copy, ownership restore, permission change) by raising a
    [RuntimeError] whose message ends with the operating system's own
    message; after a failed step it never returns normally; and when no step
    fails it returns 0. *)
Theorem copy_file_with_permissions_signals_failure {W : Type}
    (os : SystemUtils.OSOps W) (self : SystemUtils.FileUtils)
    (src dest : string) (verbose : bool) (w : W) :
  let outcome :=
    (SystemUtils.copy_file_with_permissions os self src dest verbose w).1 in
  (forall msg, step_fails os self src dest verbose w msg ->
     outcome = Raise (RuntimeError ("Error copying file: " +:+ msg))
     /\ forall v, outcome <> Ok v)
  /\ ((forall msg, ~ step_fails os self src dest verbose w msg) ->
      outcome = Ok 0).
Proof.
  intros outcome. subst outcome. split.
  - intros msg H. rewrite (copy_raises_on_failure os _ _ _ _ _ _ H).
    split; [done|]. intros v. discriminate.
  - intros Hnone.
    destruct (copy_succeeds_or_step_fails os self src dest verbose w)
      as [Hok|[msg H]]; [done|]. by destruct (Hnone msg).
Qed.

Lemma copy_file_with_permissions_signals_failure_witness :
  (SystemUtils.copy_file_with_permissions (sample_os false)
     (SystemUtils.mkFileUtils true 511) "/mnt/user0/tv/a.mkv"
     "/mnt/cache/tv/a.mkv" false []).1
  = Raise (RuntimeError "Error copying file: [Errno 1] Operation not permitted")
  /\ (SystemUtils.copy_file_with_permissions (sample_os true)
        (SystemUtils.mkFileUtils true 511) "/mnt/user0/tv/a.mkv"
        "/mnt/cache/tv/a.mkv" false []).1
     = Ok 0.
Proof.
  split.
  - apply (proj1 (copy_file_with_permissions_signals_failure (sample_os false)
                    (SystemUtils.mkFileUtils true 511) "/mnt/user0/tv/a.mkv"
                    "/mnt/cache/tv/a.mkv" false [])).
    by eapply ownership_restore_fails.
  - apply (proj2 (copy_file_with_permissions_signals_failure (sample_os true)
                    (SystemUtils.mkFileUtils true 511) "/mnt/user0/tv/a.mkv"
                    "/mnt/cache/tv/a.mkv" false [])).
    intros msg H. inversion H; simplify_eq/=.
Defined.

(* ===================================================================== *)
(** ** Instance lock *)
(* ===================================================================== *)




(* ===================================================================== *)
(** ** Maintenance runner *)
(* ===================================================================== *)

Lemma state_eqb_eq (a b : Runner.MaintenanceState) :
  Runner.state_eqb a b = true <-> a = b.
Proof. destruct a, b; simpl; split; congruence. Qed.

(** C3. A [start_action] made while the sibling slot is running, or while
    this slot is RUNNING, returns false and leaves the slot exactly as it
    was: same state, same stored result, same stop flag (and same thread). *)
Theorem start_action_rejected (sibling_is_running : bool) (now : Z)
    (action_name : string) (service_method : Runner.ServiceMethod)
    (file_count : Z) (on_complete : option Runner.OnComplete)
    (self : Runner.MaintenanceRunner) :
  sibling_is_running = true \/ Runner._state self = Runner.RUNNING ->
  let '(started, self', _) :=
    Runner.start_action sibling_is_running now action_name service_method
      file_count on_complete self in
  started = false
  /\ self' = self
  /\ Runner._state self' = Runner._state self
  /\ Runner._result self' = Runner._result self
  /\ Runner._stop_requested self' = Runner._stop_requested self.
Proof.
  intros H. unfold Runner.start_action.
  destruct sibling_is_running; [done|].
  destruct H as [H|H]; [done|]. by rewrite H.
Qed.

Lemma start_action_rejected_witness :
  let self := started_slot moves_three_files None in
  let '(started, self', _) :=
    Runner.start_action false 200 "delete-plexcached" moves_three_files 7 None
      self in
  started = false
  /\ self' = self
  /\ Runner._state self' = Runner._state self
  /\ Runner._result self' = Runner._result self
  /\ Runner._stop_requested self' = Runner._stop_requested self.
Proof.
  exact (start_action_rejected false 200 "delete-plexcached" moves_three_files
           7 None (started_slot moves_three_files None) (or_intror eq_refl)).
Defined.

(** What the [finally] clause stores, case by case. *)
Lemma record_outcome_cases (now duration : Z)
    (action_result : option Runner.ActionResult)
    (error_message : option string) (self : Runner.MaintenanceRunner)
    (res : Runner.MaintenanceResult) :
  Runner._result self = Some res ->
  exists self' res',
    Runner.record_outcome now duration action_result error_message self
      = Some self'
    /\ Runner._result self' = Some res'
    /\ Runner.state res' = Runner._state self'
    /\ Runner._thread self' = Runner._thread self
    /\ Runner._stop_requested self' = Runner._stop_requested self
    /\ (Runner.truthy error_message = true ->
        Runner._state self' = Runner.FAILED
        /\ Runner.error_message res' = error_message)
    /\ (Runner.truthy error_message = false ->
        Runner._state self' = Runner.COMPLETED
        /\ Runner.error_message res' = Runner.error_message res).
Proof.
  intros Hres. unfold Runner.record_outcome. rewrite Hres.
  destruct (Runner.truthy error_message); eexists _, _;
    repeat split; try reflexivity; try done.
Qed.

(** The slot [_run_action] leaves behind is the one the [finally] clause
    stored, whatever the callback is and does. *)
Lemma run_action_slot (start_time end_time now : Z) (action_name : string)
    (service_method : Runner.ServiceMethod)
    (on_complete : option Runner.OnComplete)
    (self : Runner.MaintenanceRunner) :
  (Runner._run_action start_time end_time now action_name service_method
     on_complete self).1.1
  = default self
      (Runner.record_outcome now (end_time - start_time)
         (Runner.try_work action_name service_method self).1.1.1
         (Runner.try_work action_name service_method self).1.1.2 self).
Proof.
  unfold Runner._run_action.
  destruct (Runner.try_work _ _ _) as [[[ar em] ev] pending]. simpl.
  destruct (Runner.record_outcome _ _ _ _ _) as [s'|]; [|done].
  destruct on_complete as [cb|]; [|done].
  destruct (cb _ _) as [|e]; [done|]. by destruct (exc_is_Exception e).
Qed.

(** After the worker of a started action finishes, the slot is COMPLETED or
    FAILED: FAILED, with the message stored, when the work function raised
    an exception whose message is not empty, COMPLETED when it returned. *)
Lemma run_action_terminal (start_time end_time now : Z) (action_name : string)
    (service_method : Runner.ServiceMethod)
    (on_complete : option Runner.OnComplete)
    (self : Runner.MaintenanceRunner) (res : Runner.MaintenanceResult) :
  Runner._result self = Some res ->
  let self' :=
    (Runner._run_action start_time end_time now action_name service_method
       on_complete self).1.1 in
  terminal (Runner._state self')
  /\ (forall e,
        service_method (fun _ => Runner._stop_requested self) = Runner.Raised e ->
        exc_is_Exception e = true -> exc_str e <> EmptyString ->
        Runner._state self' = Runner.FAILED
        /\ exists res', Runner._result self' = Some res'
                        /\ Runner.error_message res' = Some (exc_str e))
  /\ (forall v,
        service_method (fun _ => Runner._stop_requested self) = Runner.Returned v ->
        Runner._state self' = Runner.COMPLETED).
Proof.
  intros Hres self'. subst self'. rewrite run_action_slot.
  destruct (record_outcome_cases now (end_time - start_time)
              (Runner.try_work action_name service_method self).1.1.1
              (Runner.try_work action_name service_method self).1.1.2
              self res Hres) as (s' & r' & -> & Hr' & _ & _ & _ & Hf & Hc).
  simpl. split; [|split].
  - destruct (Runner.truthy _); [right; by apply Hf | left; by apply Hc].
  - intros e He Hexc Hne. unfold Runner.try_work in Hf. rewrite He, Hexc in Hf.
    simpl in Hf. destruct (exc_str e) eqn:Hs; [done|].
    destruct (Hf eq_refl) as [Hst Hmsg]. split; [done|]. by exists r'.
  - intros v Hv. unfold Runner.try_work in Hc. rewrite Hv in Hc.
    by apply Hc.
Qed.

(** C4, at the input where the code departs from it.  A started action
    whose work function raises an exception with an empty message leaves the
    slot COMPLETED, with no error message stored, although the work function
    raised: [if error_message:] takes the empty string for "no error". *)
Theorem run_action_empty_message_completes :
  let slot := started_slot raises_without_message None in
  let slot' := Runner.apply_op (Runner.WorkerFinishes 100 105 105) slot in
  Runner._state slot = Runner.RUNNING
  /\ raises_without_message (fun _ => Runner._stop_requested slot)
     = Runner.Raised (mkExc "ValueError" true EmptyString)
  /\ Runner._state slot' = Runner.COMPLETED
  /\ Runner.error_message <$> Runner._result slot' = Some None
  /\ Runner.get_status_dict slot' !! "state" = Some (Runner.VStr "completed").
Proof. vm_compute. repeat split; reflexivity. Qed.

(** From a terminal state, [dismiss] is the only operation that makes the
    slot IDLE. *)
Lemma only_dismiss_returns_to_idle (op : Runner.Op)
    (self : Runner.MaintenanceRunner) :
  terminal (Runner._state self) ->
  Runner._state (Runner.apply_op op self) = Runner.IDLE ->
  op = Runner.Dismiss.
Proof.
  intros Hterm Hidle. destruct op as [sib now name m c cb| | |st en now];
    [| |done|]; exfalso.
  - simpl in Hidle. unfold Runner.start_action in Hidle.
    destruct sib; simpl in Hidle; [destruct Hterm; congruence|].
    destruct (Runner.state_eqb _ _); simpl in Hidle; [|done].
    destruct Hterm; congruence.
  - simpl in Hidle. unfold Runner.stop_action in Hidle.
    destruct (Runner.state_eqb _ _); simpl in Hidle; destruct Hterm; congruence.
  - simpl in Hidle. destruct (Runner.live_thread self) as [t|];
      [|destruct Hterm; congruence].
    unfold Runner.mark_finished in Hidle. simpl in Hidle.
    rewrite run_action_slot in Hidle.
    unfold Runner.record_outcome in Hidle.
    destruct (Runner._result self);
      [|simpl in Hidle; destruct Hterm; congruence].
    by destruct (Runner.truthy _).
Qed.




(** The two entries every status snapshot has. *)
Lemma status_core (self : Runner.MaintenanceRunner) :
  let shown :=
    match Runner._result self with
    | None => Runner.IDLE
    | Some res =>
        if Runner.state_eqb (Runner._state self) Runner.IDLE then Runner.IDLE
        else Runner.state res
    end in
  Runner.get_status_dict self !! "state" = Some (Runner.VStr (Runner.value shown))
  /\ Runner.get_status_dict self !! "is_running"
     = Some (Runner.VBool (Runner.state_eqb shown Runner.RUNNING)).
Proof.
  unfold Runner.get_status_dict.
  destruct (Runner._result self) as [res|]; [|by split].
  destruct (Runner.state_eqb (Runner._state self) Runner.IDLE); [by split|].
  destruct (Runner.action_result res); by split.
Qed.

Lemma status_idle (self : Runner.MaintenanceRunner) :
  Runner._state self = Runner.IDLE ->
  Runner.get_status_dict self = Runner.idle_status.
Proof.
  intros H. unfold Runner.get_status_dict. rewrite H.
  by destruct (Runner._result self).
Qed.

(** C6, as the code has it.  [dismiss] takes COMPLETED and FAILED to IDLE
    and changes nothing from IDLE and RUNNING.  The stored result record
    survives the dismiss with only its state field reset to IDLE, and stays
    in the slot through [stop_action], [dismiss] and rejected starts, until
    an accepted [start_action] replaces it; but the status snapshot of the
    dismissed slot is the bare idle snapshot and shows nothing of it. *)
Theorem dismiss_returns_to_idle (self : Runner.MaintenanceRunner) :
  (terminal (Runner._state self) ->
     Runner._state (Runner.dismiss self) = Runner.IDLE
     /\ Runner._result (Runner.dismiss self)
        = Runner.set_state Runner.IDLE <$> Runner._result self
     /\ Runner.get_status_dict (Runner.dismiss self) = Runner.idle_status)
  /\ (Runner._state self = Runner.IDLE \/ Runner._state self = Runner.RUNNING ->
      Runner.dismiss self = self)
  /\ (Runner._state self = Runner.IDLE ->
      Runner._result (Runner.stop_action self).1.2 = Runner._result self
      /\ Runner._result (Runner.dismiss self) = Runner._result self
      /\ (forall now name method count cb,
            Runner._result
              (Runner.start_action true now name method count cb self).1.2
            = Runner._result self)
      /\ (forall now name method count cb,
            exists res,
              Runner._result
                (Runner.start_action false now name method count cb self).1.2
              = Some res
              /\ Runner.state res = Runner.RUNNING
              /\ Runner.action_name res = name
              /\ Runner.started_at res = Some now
              /\ Runner.completed_at res = None
              /\ Runner.action_result res = None
              /\ Runner.error_message res = None)).
Proof.
  split; [|split].
  - intros Hterm.
    assert (Hd : Runner.dismiss self
                 = Runner.mkRunner Runner.IDLE
                     (Runner.set_state Runner.IDLE <$> Runner._result self)
                     (Runner._thread self) (Runner._stop_requested self)).
    { unfold Runner.dismiss. destruct Hterm as [-> | ->]; simpl;
        by destruct (Runner._result self). }
    rewrite Hd. repeat split. by apply status_idle.
  - intros H. unfold Runner.dismiss. by destruct H as [-> | ->].
  - intros Hidle. unfold Runner.stop_action, Runner.dismiss, Runner.start_action.
    rewrite Hidle. simpl. repeat split.
    intros now name method count cb. eexists. repeat split.
Qed.

Lemma dismiss_returns_to_idle_witness :
  let slot :=
    Runner.apply_op (Runner.WorkerFinishes 100 105 105)
      (started_slot moves_three_files None) in
  Runner._state (Runner.dismiss slot) = Runner.IDLE
  /\ Runner._result (Runner.dismiss slot)
     = Runner.set_state Runner.IDLE <$> Runner._result slot
  /\ Runner.get_status_dict (Runner.dismiss slot) = Runner.idle_status.
Proof.
  apply (proj1 (dismiss_returns_to_idle
                  (Runner.apply_op (Runner.WorkerFinishes 100 105 105)
                     (started_slot moves_three_files None)))).
  left. reflexivity.
Defined.

(** C6 as stated fails: after a dismiss the last result is still stored in
    the slot, but the status snapshot no longer shows it.  An action
    completes; its name and result message are in the snapshot; after
    [dismiss] the snapshot is the bare idle one and has neither. *)
Lemma dismissed_result_not_in_status :
  let finished :=
    Runner.apply_op (Runner.WorkerFinishes 100 105 105)
      (started_slot moves_three_files None) in
  let slot := Runner.dismiss finished in
  Runner.get_status_dict finished !! "action_name"
  = Some (Runner.VStr "sync-to-array")
  /\ Runner.get_status_dict finished !! "result_message"
     = Some (Runner.VStr "Moved 3 file(s)")
  /\ Runner.action_name <$> Runner._result slot = Some "sync-to-array"
  /\ Runner.get_status_dict slot !! "action_name" = None
  /\ Runner.get_status_dict slot !! "result_message" = None
  /\ Runner.get_status_dict slot = Runner.idle_status.
Proof. vm_compute. repeat split; reflexivity. Qed.

(** Every operation keeps the result record's state equal to the slot's. *)
Lemma apply_op_result_agrees (op : Runner.Op) (self : Runner.MaintenanceRunner) :
  result_agrees self -> result_agrees (Runner.apply_op op self).
Proof.
  unfold result_agrees. intros Hagree.
  destruct op as [sib now name m c cb| | |st en now]; simpl.
  - unfold Runner.start_action. destruct sib; [done|].
    destruct (Runner.state_eqb _ _); [done|]. simpl. by intros res [= <-].
  - unfold Runner.stop_action. by destruct (negb _).
  - unfold Runner.dismiss.
    destruct (_ || _); [|done]. simpl.
    destruct (Runner._result self); [|done]. by intros res [= <-].
  - destruct (Runner.live_thread self) as [t|]; [|done].
    unfold Runner.mark_finished. simpl. rewrite run_action_slot.
    destruct (Runner._result self) as [res0|] eqn:Hres.
    + destruct (record_outcome_cases now (en - st)
                  (Runner.try_work (Runner.t_action_name t)
                     (Runner.t_service_method t) self).1.1.1
                  (Runner.try_work (Runner.t_action_name t)
                     (Runner.t_service_method t) self).1.1.2
                  self res0 Hres) as (s' & r' & -> & Hr' & Hst & _).
      simpl. rewrite Hr'. by intros res [= <-].
    + unfold Runner.record_outcome. rewrite Hres. simpl. by rewrite Hres.
Qed.

(** Every operation keeps a result record in a slot that is not idle. *)
Lemma apply_op_busy_has_result (op : Runner.Op)
    (self : Runner.MaintenanceRunner) :
  busy_has_result self -> busy_has_result (Runner.apply_op op self).
Proof.
  unfold busy_has_result. intros Hbusy.
  destruct op as [sib now name m c cb| | |st en now]; simpl.
  - unfold Runner.start_action. destruct sib; [done|].
    destruct (Runner.state_eqb _ _); [done|]. simpl. by eexists.
  - unfold Runner.stop_action. by destruct (negb _).
  - unfold Runner.dismiss. by destruct (_ || _).
  - destruct (Runner.live_thread self) as [t|]; [|done].
    unfold Runner.mark_finished. simpl. rewrite run_action_slot.
    unfold Runner.record_outcome.
    destruct (Runner._result self) as [res0|] eqn:Hres.
    + destruct (Runner.truthy _); simpl; by eexists.
    + simpl. by rewrite Hres.
Qed.

Lemma run_ops_invariant (ops : list Runner.Op) (self : Runner.MaintenanceRunner) :
  result_agrees self -> busy_has_result self ->
  result_agrees (Runner.run_ops ops self)
  /\ busy_has_result (Runner.run_ops ops self).
Proof.
  revert self. induction ops as [|op ops IH]; intros self Ha Hb; [done|].
  apply IH; [by apply apply_op_result_agrees | by apply apply_op_busy_has_result].
Qed.

Lemma init_invariant :
  result_agrees Runner.__init__ /\ busy_has_result Runner.__init__.
Proof. split; [by intros res | by intros H]. Qed.

(** In a slot that satisfies the two invariants the snapshot shows the
    slot's own state. *)
Lemma status_shows_state (self : Runner.MaintenanceRunner) :
  result_agrees self -> busy_has_result self ->
  Runner.get_status_dict self !! "state"
  = Some (Runner.VStr (Runner.value (Runner._state self)))
  /\ Runner.get_status_dict self !! "is_running"
     = Some (Runner.VBool (Runner.is_running self)).
Proof.
  intros Ha Hb. destruct (status_core self) as [Hs Hr]. rewrite Hs, Hr.
  unfold Runner.is_running. unfold result_agrees in Ha. unfold busy_has_result in Hb.
  destruct (Runner._result self) as [res|].
  - destruct (Runner.state_eqb (Runner._state self) Runner.IDLE) eqn:Hidle.
    + apply state_eqb_eq in Hidle. by rewrite Hidle.
    + by rewrite (Ha res eq_refl).
  - destruct (Runner._state self) eqn:Hst; try done;
      by destruct Hb as [? ?].
Qed.

(** C8. In every state the slot can reach from its initial state, the
    snapshot's [is_running] entry is true if and only if the slot's state is
    RUNNING. *)
Theorem is_running_iff_RUNNING (ops : list Runner.Op) :
  let slot := Runner.run_ops ops Runner.__init__ in
  Runner.get_status_dict slot !! "is_running"
  = Some (Runner.VBool (Runner.is_running slot))
  /\ (Runner.get_status_dict slot !! "is_running" = Some (Runner.VBool true)
      <-> Runner._state slot = Runner.RUNNING).
Proof.
  intros slot.
  destruct (run_ops_invariant ops Runner.__init__) as [Ha Hb];
    [apply init_invariant..|].
  destruct (status_shows_state slot Ha Hb) as [_ Hr]. split; [done|].
  rewrite Hr. unfold Runner.is_running. rewrite <- state_eqb_eq.
  split; [by intros [= ->] | by intros ->].
Qed.

(** C10. Every operation on the slot (start, stop, dismiss, the worker
    finishing) preserves the invariant that a stored result record carries
    the slot's own state; the initial slot satisfies it; and so, in every
    state the slot can reach, the snapshot's state entry is the slot's
    state. *)
Theorem result_state_agrees_with_slot :
  (forall op self, result_agrees self -> result_agrees (Runner.apply_op op self))
  /\ result_agrees Runner.__init__
  /\ (forall ops,
        let slot := Runner.run_ops ops Runner.__init__ in
        result_agrees slot
        /\ Runner.get_status_dict slot !! "state"
           = Some (Runner.VStr (Runner.value (Runner._state slot)))).
Proof.
  split; [exact apply_op_result_agrees|]. split; [apply init_invariant|].
  intros ops slot.
  destruct (run_ops_invariant ops Runner.__init__) as [Ha Hb];
    [apply init_invariant..|].
  split; [done|]. by apply status_shows_state.
Qed.

Lemma result_state_agrees_with_slot_witness :
  result_agrees
    (Runner.apply_op (Runner.WorkerFinishes 100 105 105)
       (started_slot moves_three_files None)).
Proof.
  apply (proj1 result_state_agrees_with_slot).
  intros res. vm_compute. by intros [= <-].
Defined.

(* ===================================================================== *)
(** ** Further properties of path resolution and ZFS detection *)
(* ===================================================================== *)

(** The three ways [get_array_direct_path] can go. *)
Lemma get_array_direct_path_inv (zfs : gset string) (path : string) :
  (Py.startswith path "/mnt/user/" = false
   /\ SystemUtils.get_array_direct_path zfs path = path)
  \/ (Py.startswith path "/mnt/user/" = true
      /\ (exists p, p ∈ zfs /\ Py.startswith path p = true)
      /\ SystemUtils.zfs_prefix_loop path (elements zfs) = Some path
      /\ SystemUtils.get_array_direct_path zfs path = path)
  \/ (exists suffix,
        path = "/mnt/user/" +:+ suffix
        /\ (forall p, p ∈ zfs -> Py.startswith path p = false)
        /\ SystemUtils.get_array_direct_path zfs path = "/mnt/user0/" +:+ suffix).
Proof.
  unfold SystemUtils.get_array_direct_path, SystemUtils.user_root,
    SystemUtils.user0_root.
  destruct (Py.startswith path "/mnt/user/") eqn:Hroot; [|by left].
  right. destruct (SystemUtils.zfs_prefix_loop _ _) as [r|] eqn:Hloop.
  - left. apply zfs_prefix_loop_Some in Hloop as Hl.
    destruct Hl as [-> (p & Hp & Hs)]. repeat split; try done.
    exists p. split; [by apply elem_of_elements | done].
  - right. apply startswith_iff in Hroot as [suffix ->]. exists suffix.
    split; [done|]. split.
    + intros p Hp. apply (zfs_prefix_loop_None _ _ Hloop).
      by apply elem_of_elements.
    + by rewrite (slice_from_app "/mnt/user/" suffix).
Qed.

Lemma user0_not_under_user (suffix : string) :
  Py.startswith ("/mnt/user0/" +:+ suffix) "/mnt/user/" = false.
Proof. reflexivity. Qed.

(** X1. [get_array_direct_path] is idempotent: resolving a path that has
    already been resolved changes nothing. *)
Theorem get_array_direct_path_idempotent (zfs : gset string) (path : string) :
  SystemUtils.get_array_direct_path zfs
    (SystemUtils.get_array_direct_path zfs path)
  = SystemUtils.get_array_direct_path zfs path.
Proof.
  destruct (get_array_direct_path_inv zfs path)
    as [[Hroot ->] | [(Hroot & _ & Hloop & ->) | (suffix & -> & _ & ->)]].
  - unfold SystemUtils.get_array_direct_path, SystemUtils.user_root.
    by rewrite Hroot.
  - unfold SystemUtils.get_array_direct_path, SystemUtils.user_root.
    by rewrite Hroot, Hloop.
  - unfold SystemUtils.get_array_direct_path, SystemUtils.user_root.
    by rewrite user0_not_under_user.
Qed.

(** X2. The result lies under the union mount ["/mnt/user/"] only for a
    path that starts with a registered ZFS prefix: any other path is never
    checked through the union mount. *)
Theorem get_array_direct_path_leaves_union_mount (zfs : gset string)
    (path : string) :
  starts_with (SystemUtils.get_array_direct_path zfs path) "/mnt/user/" ->
  SystemUtils.get_array_direct_path zfs path = path
  /\ exists p, p ∈ zfs /\ starts_with path p.
Proof.
  intros Hres. apply startswith_iff in Hres.
  destruct (get_array_direct_path_inv zfs path)
    as [[Hroot Heq] | [(Hroot & (p & Hp & Hs) & _ & Heq) | (suffix & -> & _ & Heq)]].
  - rewrite Heq in Hres. congruence.
  - split; [done|]. exists p. split; [done | by apply startswith_iff].
  - rewrite Heq, user0_not_under_user in Hres. done.
Qed.

Lemma get_array_direct_path_leaves_union_mount_witness :
  SystemUtils.get_array_direct_path {["/mnt/user/tank"]} "/mnt/user/tank/a.mkv"
  = "/mnt/user/tank/a.mkv"
  /\ exists p, p ∈ ({["/mnt/user/tank"]} : gset string)
               /\ starts_with "/mnt/user/tank/a.mkv" p.
Proof.
  apply (get_array_direct_path_leaves_union_mount {["/mnt/user/tank"]}
           "/mnt/user/tank/a.mkv").
  by exists "tank/a.mkv".
Defined.

(** X3. On paths under the union mount the resolution is injective: two
    different virtual paths never resolve to the same verification path. *)
Theorem get_array_direct_path_injective (zfs : gset string) (p1 p2 : string) :
  starts_with p1 "/mnt/user/" ->
  starts_with p2 "/mnt/user/" ->
  SystemUtils.get_array_direct_path zfs p1
  = SystemUtils.get_array_direct_path zfs p2 ->
  p1 = p2.
Proof.
  intros H1 H2 Heq. apply startswith_iff in H1, H2.
  destruct (get_array_direct_path_inv zfs p1)
    as [[Hr1 E1] | [(_ & _ & _ & E1) | (s1 & -> & _ & E1)]]; [congruence| |];
  destruct (get_array_direct_path_inv zfs p2)
    as [[Hr2 E2] | [(_ & _ & _ & E2) | (s2 & -> & _ & E2)]]; try congruence.
  - rewrite E1, E2 in Heq. subst p1.
    by rewrite user0_not_under_user in H1.
  - rewrite E1, E2 in Heq. subst p2.
    by rewrite user0_not_under_user in H2.
  - rewrite E1, E2 in Heq. f_equal.
    by apply (inj (String.append "/mnt/user0/")) in Heq.
Qed.

Lemma get_array_direct_path_injective_witness :
  "/mnt/user/tv/a.mkv" = "/mnt/user/tv/a.mkv".
Proof.
  apply (get_array_direct_path_injective ∅ "/mnt/user/tv/a.mkv"
           "/mnt/user/tv/a.mkv").
  - by exists "tv/a.mkv".
  - by exists "tv/a.mkv".
  - reflexivity.
Defined.

Lemma check_empty_share (h : SystemUtils.Host) :
  SystemUtils._check_zfs_mount_for_share h EmptyString = false.
Proof.
  unfold SystemUtils._check_zfs_mount_for_share.
  destruct (SystemUtils.proc_mounts h) as [lines|msg]; [|done].
  apply not_true_is_false. intros Hloop.
  apply mounts_loop_iff in Hloop as (line & _ & Hline).
  apply line_is_zfs_share_iff in Hline as (mp & _ & Hends).
  apply endswith_iff in Hends as [pre Hpre].
  by apply (rstrip_no_trailing "/" mp pre).
Qed.

(** Under the union mount, with a probe that does not report ZFS, the
    answer is the mount-table check for the share name. *)
Lemma detect_zfs_fallback (h : SystemUtils.Host) (path : string) :
  SystemUtils.df_says_zfs (SystemUtils.run_df_T h path) = false ->
  Py.startswith path "/mnt/user/" = true ->
  SystemUtils.detect_zfs h path
  = SystemUtils._check_zfs_mount_for_share h (share_name_of path).
Proof.
  intros Hdf Hroot. unfold SystemUtils.detect_zfs. rewrite Hdf, Hroot.
  apply startswith_iff in Hroot as [rest ->].
  unfold share_name_of. rewrite slice_from_app.
  destruct (share_parts rest) as [[Hr Hlen]|(Hr & Hlen & Hshare)].
  - rewrite Hlen. simpl. rewrite (rstrip_empty_first_component rest Hr).
    by rewrite check_empty_share.
  - by rewrite Hlen, Hshare.
Qed.

(** X4. Every path of a share gets the same answer: when the probe reports
    ZFS for neither of two paths under the union mount, and both have the
    same share name, [detect_zfs] agrees on them. *)
Theorem detect_zfs_same_share (h : SystemUtils.Host) (p1 p2 : string) :
  SystemUtils.df_says_zfs (SystemUtils.run_df_T h p1) = false ->
  SystemUtils.df_says_zfs (SystemUtils.run_df_T h p2) = false ->
  starts_with p1 "/mnt/user/" ->
  starts_with p2 "/mnt/user/" ->
  share_name_of p1 = share_name_of p2 ->
  SystemUtils.detect_zfs h p1 = SystemUtils.detect_zfs h p2.
Proof.
  intros Hd1 Hd2 H1 H2 Hshare. apply startswith_iff in H1, H2.
  rewrite !detect_zfs_fallback by done. by rewrite Hshare.
Qed.

Lemma detect_zfs_same_share_witness :
  SystemUtils.detect_zfs sample_host "/mnt/user/plex_media/movies/a.mkv"
  = SystemUtils.detect_zfs sample_host "/mnt/user/plex_media/".
Proof.
  apply (detect_zfs_same_share sample_host "/mnt/user/plex_media/movies/a.mkv"
           "/mnt/user/plex_media/"); try reflexivity.
  - by exists "plex_media/movies/a.mkv".
  - by exists "plex_media/".
Defined.

Lemma mounts_loop_subset (share : string) (lines lines' : list string) :
  (forall line, line ∈ lines -> line ∈ lines') ->
  SystemUtils.mounts_loop share lines = true ->
  SystemUtils.mounts_loop share lines' = true.
Proof.
  intros Hsub Hloop. apply mounts_loop_iff in Hloop as (line & Hin & Hline).
  apply mounts_loop_iff. exists line. split; [by apply Hsub | done].
Qed.

(** X5. The answer depends on which lines the mount table has, not on
    their order, and grows with the table: if every line of one table
    occurs in another and the probe answers alike, a path found to be on
    ZFS with the first table is found to be on ZFS with the second. *)
Theorem detect_zfs_monotone (df : string -> SystemUtils.RunOutcome)
    (lines lines' : list string) (path : string) :
  (forall line, line ∈ lines -> line ∈ lines') ->
  SystemUtils.detect_zfs
    (SystemUtils.mkHost df (SystemUtils.MountsLines lines)) path = true ->
  SystemUtils.detect_zfs
    (SystemUtils.mkHost df (SystemUtils.MountsLines lines')) path = true.
Proof.
  intros Hsub. unfold SystemUtils.detect_zfs,
    SystemUtils._check_zfs_mount_for_share.
  cbn [SystemUtils.proc_mounts SystemUtils.run_df_T].
  destruct (SystemUtils.df_says_zfs (df path)); [done|].
  destruct (Py.startswith path "/mnt/user/"); [|done].
  destruct (4 <=? length (Py.split "/" (Py.rstrip "/" path)))%nat; [|done].
  destruct (Py.split "/" (Py.rstrip "/" path) !! 3%nat) as [share|]; [|done].
  by apply mounts_loop_subset.
Qed.

Lemma detect_zfs_monotone_witness :
  SystemUtils.detect_zfs
    (SystemUtils.mkHost (fun _ => SystemUtils.TimeoutExpired)
       (SystemUtils.MountsLines
          ["tank/media /mnt/tank/media zfs rw 0 0"; "proc /proc proc rw 0 0"]))
    "/mnt/user/media/a.mkv" = true.
Proof.
  apply (detect_zfs_monotone (fun _ => SystemUtils.TimeoutExpired)
           ["tank/media /mnt/tank/media zfs rw 0 0"]
           ["tank/media /mnt/tank/media zfs rw 0 0"; "proc /proc proc rw 0 0"]
           "/mnt/user/media/a.mkv").
  - intros line Hin. apply list_elem_of_singleton in Hin as ->. left.
  - reflexivity.
Defined.

(* ===================================================================== *)
(** ** Further properties of the instance lock *)
(* ===================================================================== *)




(** X8. [release] gives up the lock even when its cleanup fails: on a
    handle that is locked and whose descriptor holds the lock, the lock is
    free and the descriptor cleared afterwards under every fault; the
    [locked] flag is reset and the lock file gone exactly when [os.remove]
    did not raise. *)
Theorem release_frees_lock (f : SystemUtils.Faults) (os : SystemUtils.LockOS)
    (self : SystemUtils.SingleInstanceLock) (fd : nat) :
  SystemUtils.locked self = true ->
  SystemUtils.lock_fd self = Some fd ->
  SystemUtils.flock_holder os = Some (SystemUtils.HeldByFd fd) ->
  SystemUtils.lock_file_exists os = true ->
  let '(os', self') := SystemUtils.release f os self in
  SystemUtils.flock_holder os' = None
  /\ SystemUtils.lock_fd self' = None
  /\ SystemUtils.locked self' = SystemUtils.remove_raises f
  /\ SystemUtils.lock_file_exists os' = SystemUtils.remove_raises f.
Proof.
  destruct os as [holder nfd ex content reg], self as [lf fd0 lk],
    f as [fo fw fr]. simpl.
  intros -> -> -> ->.
  unfold SystemUtils.release, SystemUtils.os_flock_un, SystemUtils.os_close.
  simpl. rewrite Nat.eqb_refl. simpl. by destruct fr.
Qed.

Lemma release_frees_lock_witness :
  let '(_, os1, h1) :=
    SystemUtils.acquire 4242 SystemUtils.no_faults lock_os0
      (SystemUtils.__init__ "/tmp/plexcache.lock") in
  let '(os', self') :=
    SystemUtils.release (SystemUtils.mkFaults false false true) os1 h1 in
  SystemUtils.flock_holder os' = None
  /\ SystemUtils.lock_fd self' = None
  /\ SystemUtils.locked self' = true
  /\ SystemUtils.lock_file_exists os' = true.
Proof.
  exact (release_frees_lock (SystemUtils.mkFaults false false true)
           (SystemUtils.acquire 4242 SystemUtils.no_faults lock_os0
              (SystemUtils.__init__ "/tmp/plexcache.lock")).1.2
           (SystemUtils.acquire 4242 SystemUtils.no_faults lock_os0
              (SystemUtils.__init__ "/tmp/plexcache.lock")).2
           3%nat eq_refl eq_refl eq_refl eq_refl).
Defined.

(** X9. [release] can be repeated.  Without faults a second [release]
    changes nothing; and after a [release] whose cleanup failed, a further
    [release] that meets no fault finishes the job: the handle is no longer
    marked locked and the lock file is gone. *)
Theorem release_repeated (f : SystemUtils.Faults) (os : SystemUtils.LockOS)
    (self : SystemUtils.SingleInstanceLock) :
  let '(os1, self1) := SystemUtils.release f os self in
  let '(os2, self2) := SystemUtils.release SystemUtils.no_faults os1 self1 in
  SystemUtils.locked self2 = false
  /\ (SystemUtils.locked self = true -> SystemUtils.lock_file_exists os2 = false)
  /\ (SystemUtils.remove_raises f = false -> (os2, self2) = (os1, self1)).
Proof.
  destruct os as [holder nfd ex content reg], self as [lf fd0 lk],
    f as [fo fw fr].
  unfold SystemUtils.release, SystemUtils.os_flock_un, SystemUtils.os_close.
  simpl. destruct lk; simpl; [|done].
  destruct fd0 as [fd|], holder as [[fd'|]|]; simpl;
    repeat (match goal with
            | |- context [(?a =? ?b)%nat] =>
                destruct (Nat.eqb_spec a b); simpl; subst
            end);
    destruct ex, fr; simpl; done.
Qed.

(* ===================================================================== *)
(** ** System detection and the other file utilities *)
(* ===================================================================== *)

(** X10. [SystemDetector] reports Unraid exactly on a system named
    ["Linux"] on which ["/mnt/user0/"] exists; whenever it reports Unraid it
    also reports Linux; and the only system it does not report as Linux is
    ["Windows"]. *)
Theorem detector_unraid_iff (platform_system : string)
    (exists_ : string -> bool) :
  let d := Detector.__init__ platform_system exists_ in
  (Detector.is_unraid d = true
   <-> platform_system = "Linux" /\ exists_ "/mnt/user0/" = true)
  /\ (Detector.is_unraid d = true -> Detector.is_linux d = true)
  /\ (Detector.is_linux d = false <-> platform_system = "Windows").
Proof.
  simpl.
  assert (Hunraid : Detector._detect_unraid platform_system exists_ = true
                    <-> platform_system = "Linux" /\ exists_ "/mnt/user0/" = true).
  { unfold Detector._detect_unraid, Detector.os_info.
    destruct (decide (platform_system = "Linux")) as [->|Hl].
    - rewrite lookup_insert_eq. simpl. split; [done | by intros [_ ?]].
    - rewrite lookup_insert_ne by done.
      destruct (decide (platform_system = "Darwin")) as [->|Hd].
      + rewrite lookup_insert_eq. split; [done | by intros [? _]].
      + rewrite lookup_insert_ne by done.
        destruct (decide (platform_system = "Windows")) as [->|Hw].
        * rewrite lookup_singleton_eq. split; [done | by intros [? _]].
        * rewrite lookup_singleton_ne by done.
          split; [done | by intros [? _]]. }
  split; [done|]. split.
  - intros [-> _]%Hunraid. reflexivity.
  - rewrite negb_false_iff. apply String.eqb_eq.
Qed.

(** X11. The readable size keeps the byte count and divides it by the
    unit: the unit is TB, GB or MB exactly from 1024^4, 1024^3 and 1024^2
    bytes on, so that the quotient is at least 1, and below 1024 except in
    TB; every smaller count, zero and negative counts included, is given in
    KB with a quotient below 1024. *)
Theorem convert_bytes_unit (size_bytes : Z) :
  let '(size, unit) := FileOps._convert_bytes_to_readable_size size_bytes in
  FileOps.num size = size_bytes
  /\ ((unit = "TB" /\ FileOps.den size = 1024 ^ 4
       /\ FileOps.den size <= size_bytes)
      \/ (unit = "GB" /\ FileOps.den size = 1024 ^ 3
          /\ FileOps.den size <= size_bytes < 1024 * FileOps.den size)
      \/ (unit = "MB" /\ FileOps.den size = 1024 ^ 2
          /\ FileOps.den size <= size_bytes < 1024 * FileOps.den size)
      \/ (unit = "KB" /\ FileOps.den size = 1024
          /\ size_bytes < 1024 * FileOps.den size)).
Proof.
  unfold FileOps._convert_bytes_to_readable_size.
  destruct (Z.geb_spec size_bytes (1024 ^ 4)); simpl.
  { split; [done|]. left. repeat split; lia. }
  destruct (Z.geb_spec size_bytes (1024 ^ 3)); simpl.
  { split; [done|]. right. left. repeat split; lia. }
  destruct (Z.geb_spec size_bytes (1024 ^ 2)); simpl.
  { split; [done|]. right. right. left. repeat split; lia. }
  split; [done|]. right. right. right. repeat split; lia.
Qed.

Section TotalSize.
Context {W : Type} (os : FileOps.FsOps W).
Hypothesis Hreads : getsize_reads_only os.

Lemma total_size_loop_sum (files : list string) (total : Z)
    (skipped : list string) (w : W) :
  FileOps.total_size_loop os files total skipped w
  = (total + sum_sizes os w files,
     skipped ++ List.filter
                  (fun file =>
                     match (FileOps.os_path_getsize os file w).1 with
                     | SystemUtils.OSOk _ => false
                     | SystemUtils.OSFail _ => true
                     end) files,
     w).
Proof.
  revert total skipped. induction files as [|file rest IH]; intros total skipped.
  - simpl. unfold sum_sizes. simpl. by rewrite Z.add_0_r, app_nil_r.
  - simpl. unfold sum_sizes, size_or_zero. simpl.
    pose proof (Hreads file w) as Hw.
    destruct (FileOps.os_path_getsize os file w) as [[size|msg] w'];
      simpl in Hw; subst w'; rewrite IH; simpl.
    + unfold sum_sizes, size_or_zero. f_equal. f_equal. lia.
    + unfold sum_sizes, size_or_zero. by rewrite <- app_assoc.
Qed.

Lemma sum_sizes_perm (w : W) (files files' : list string) :
  Permutation files files' -> sum_sizes os w files = sum_sizes os w files'.
Proof.
  unfold sum_sizes. induction 1 as [|x l l' _ IH|x y l|l l' l'' _ IH1 _ IH2];
    simpl; lia.
Qed.

End TotalSize.

(** X12. [get_total_size_of_files] never fails on a file it cannot read:
    it always returns, and what it converts is the sum of the sizes of the
    files that can be read, the others counting for nothing.  The order of
    the files does not matter. *)
Theorem total_size_skips_unreadable {W : Type} (os : FileOps.FsOps W)
    (files : list string) (w : W) :
  getsize_reads_only os ->
  FileOps.get_total_size_of_files os files w
  = (Ok (FileOps._convert_bytes_to_readable_size (sum_sizes os w files)), w)
  /\ forall files',
       Permutation files files' ->
       FileOps.get_total_size_of_files os files' w
       = FileOps.get_total_size_of_files os files w.
Proof.
  intros Hreads.
  assert (Hall : forall l,
            FileOps.get_total_size_of_files os l w
            = (Ok (FileOps._convert_bytes_to_readable_size (sum_sizes os w l)),
               w)).
  { intros l. unfold FileOps.get_total_size_of_files.
    by rewrite (total_size_loop_sum os Hreads). }
  split; [apply Hall|]. intros files' Hperm.
  by rewrite !Hall, (sum_sizes_perm os w files files' Hperm).
Qed.

Lemma total_size_skips_unreadable_witness :
  FileOps.get_total_size_of_files (sample_fs true true)
    ["a.mkv"; "gone.mkv"; "b.mkv"] 18
  = (Ok (FileOps.mkQuotient 2048 1024, "KB"), 18).
Proof.
  apply (proj1 (total_size_skips_unreadable (sample_fs true true)
                  ["a.mkv"; "gone.mkv"; "b.mkv"] 18
                  ltac:(intros p w; simpl;
                        by repeat (destruct (String.eqb _ _))))).
Defined.

Section Umask.
Context {W : Type} (umask_of : W -> Z).

(** What a call leaves of the umask, from the equation of its result. *)
Local Ltac keep_umask law H :=
  let K := fresh "K" in
  pose proof law as K; rewrite H in K; simpl in K.

(** Hypotheses on later steps are referred back to the steps taken. *)
Local Ltac same_steps :=
  intros; simplify_eq/=;
  repeat match goal with
         | H : ?l = (_, _), H' : context [?l] |- _ =>
             rewrite H in H'; simpl in H'; simplify_eq/=
         end.


Local Ltac run_monad :=
  unfold SystemUtils.copy_file_with_permissions,
    FileOps.create_directory_with_permissions, FileOps.test,
    SystemUtils.try_except, SystemUtils.bind, SystemUtils.call,
    SystemUtils.call_total, SystemUtils.ret, SystemUtils.raise.

(** X13. [copy_file_with_permissions] and the process umask.  When the
    copy returns, the umask is the one in force before the call.  When the
    permission change fails, the umask is left cleared: the call that would
    restore it is skipped. *)
Theorem copy_umask_discipline (os : SystemUtils.OSOps W)
    (self : SystemUtils.FileUtils) (src dest : string) (verbose : bool)
    (w : W) :
  UmaskLaws os umask_of ->
  let '(outcome, w') :=
    SystemUtils.copy_file_with_permissions os self src dest verbose w in
  (forall v, outcome = Ok v -> umask_of w' = umask_of w)
  /\ (forall st w1 w2 w3 msg w4,
        SystemUtils.is_linux self = true ->
        SystemUtils.os_stat os src w = (SystemUtils.OSOk st, w1) ->
        SystemUtils.shutil_copy2 os src dest w1 = (SystemUtils.OSOk tt, w2) ->
        SystemUtils.os_chown os dest (SystemUtils.st_uid st)
          (SystemUtils.st_gid st) w2 = (SystemUtils.OSOk tt, w3) ->
        SystemUtils.os_chmod os dest (SystemUtils.permissions self)
          (SystemUtils.os_umask os 0 w3).2 = (SystemUtils.OSFail msg, w4) ->
        outcome = Raise (RuntimeError ("Error copying file: " +:+ msg))
        /\ umask_of w' = 0).
Proof.
  intros [Hold Hnew Hstat Hcopy Hchown Hchmod]. run_monad.
  destruct (SystemUtils.is_linux self) eqn:Hl.
  - destruct (SystemUtils.os_stat os src w) as [[st|m] w1] eqn:H1;
      [|simpl; split; [done | same_steps]].
    keep_umask (Hstat src w) H1.
    destruct (SystemUtils.shutil_copy2 os src dest w1) as [[[]|m] w2] eqn:H2;
      [|simpl; split; [done | same_steps]].
    keep_umask (Hcopy src dest w1) H2.
    destruct (SystemUtils.os_chown os dest (SystemUtils.st_uid st)
                (SystemUtils.st_gid st) w2) as [[[]|m] w3] eqn:H3;
      [|simpl; split; [done | same_steps]].
    keep_umask (Hchown dest (SystemUtils.st_uid st) (SystemUtils.st_gid st) w2) H3.
    pose proof (Hold 0 w3) as Ho. pose proof (Hnew 0 w3) as Hn.
    destruct (SystemUtils.os_umask os 0 w3) as [u w3'] eqn:H4. simpl in Ho, Hn.
    destruct (SystemUtils.os_chmod os dest (SystemUtils.permissions self) w3')
      as [[[]|m] w4] eqn:H5.
    + keep_umask (Hchmod dest (SystemUtils.permissions self) w3') H5.
      pose proof (Hnew u w4) as Hr.
      destruct (SystemUtils.os_umask os u w4) as [u' w4'] eqn:H6. simpl in Hr.
      destruct verbose.
      * destruct (SystemUtils.os_stat os dest w4') as [[st'|m] w5] eqn:H7.
        -- keep_umask (Hstat dest w4') H7. simpl.
           split; [intros _ _; congruence | same_steps].
        -- simpl. split; [done | same_steps].
      * simpl. split; [intros _ _; congruence | same_steps].
    + keep_umask (Hchmod dest (SystemUtils.permissions self) w3') H5. simpl.
      split; [done|]. same_steps. split; [done | congruence].
  - destruct (SystemUtils.shutil_copy2 os src dest w) as [[[]|m] w1] eqn:H1;
      simpl.
    + keep_umask (Hcopy src dest w) H1. split; [done | same_steps].
    + split; [done | same_steps].
Qed.


End Umask.

Lemma umask_os_laws (chown_ok chmod_ok : bool) :
  UmaskLaws (umask_os chown_ok chmod_ok) (fun w => w).
Proof.
  split; simpl; try done.
  - intros p u g w. by destruct chown_ok.
  - intros p m w. by destruct chmod_ok.
Qed.

Lemma copy_umask_discipline_witness :
  let '(outcome, w') :=
    SystemUtils.copy_file_with_permissions (umask_os true false)
      (SystemUtils.mkFileUtils true 511) "/mnt/user0/tv/a.mkv"
      "/mnt/cache/tv/a.mkv" false 18 in
  outcome
  = Raise (RuntimeError "Error copying file: [Errno 1] Operation not permitted")
  /\ w' = 0.
Proof.
  pose proof (copy_umask_discipline (fun w => w) (umask_os true false)
                (SystemUtils.mkFileUtils true 511) "/mnt/user0/tv/a.mkv"
                "/mnt/cache/tv/a.mkv" false 18 (umask_os_laws true false))
    as H.
  destruct (SystemUtils.copy_file_with_permissions _ _ _ _ _ _) as [outcome w'].
  exact (proj2 H _ _ _ _ _ _ eq_refl eq_refl eq_refl eq_refl eq_refl).
Defined.


(* ===================================================================== *)
(** ** Further properties of the maintenance runner *)
(* ===================================================================== *)

Lemma state_eqb_refl (s : Runner.MaintenanceState) : Runner.state_eqb s s = true.
Proof. by destruct s. Qed.

Lemma state_eqb_neq_source (a b : Runner.MaintenanceState) :
  Runner.state_eqb a b = false -> a <> b.
Proof. destruct a, b; simpl; congruence. Qed.

Lemma state_eqb_false (a b : Runner.MaintenanceState) :
  a <> b -> Runner.state_eqb a b = false.
Proof. destruct a, b; simpl; congruence. Qed.

Lemma truthy_nonempty (em : option string) :
  Runner.truthy em = true -> exists msg, em = Some msg /\ msg <> EmptyString.
Proof. destruct em as [[|a s]|]; simpl; [done| |done]. intros _. by eexists. Qed.

Lemma try_work_error (name : string) (method : Runner.ServiceMethod)
    (self : Runner.MaintenanceRunner) :
  Runner.truthy (Runner.try_work name method self).1.1.2 = true ->
  (Runner.try_work name method self).1.1.1 = None.
Proof.
  unfold Runner.try_work. destruct (method _) as [v|e]; simpl; [done|].
  by destruct (exc_is_Exception e).
Qed.

Lemma init_wf : slot_wf Runner.__init__.
Proof.
  split; [|done]. simpl. split; [by intros [? ?] | done].
Qed.

Lemma apply_op_wf (op : Runner.Op) (r : Runner.MaintenanceRunner) :
  slot_wf r -> slot_wf (Runner.apply_op op r).
Proof.
  intros Hwf. pose proof Hwf as [Hlive Hres].
  destruct op as [sib now name m c cb| | |st en now]; simpl.
  - unfold Runner.start_action. destruct sib; [done|].
    destruct (Runner.state_eqb _ _); [done|]. split; simpl.
    + split; [done | by eexists].
    + eexists. repeat split.
  - unfold Runner.stop_action.
    destruct (negb _); [done|]. split; [exact Hlive | exact Hres].
  - unfold Runner.dismiss.
    destruct (Runner._state r) eqn:Hst; simpl; [by rewrite <- Hst in *..| |].
    + split; [|done]. unfold Runner.live_thread in *. simpl.
      rewrite Hlive. split; done.
    + split; [|done]. unfold Runner.live_thread in *. simpl.
      rewrite Hlive. split; done.
  - destruct (Runner.live_thread r) as [t|] eqn:Ht; [|done].
    assert (Hrun : Runner._state r = Runner.RUNNING) by (by apply Hlive).
    rewrite Hrun in Hres. destruct Hres as (res & Hr & Hs & Hc & Ha & He).
    rewrite run_action_slot. unfold Runner.record_outcome. rewrite Hr.
    pose proof (try_work_error (Runner.t_action_name t)
                  (Runner.t_service_method t) r) as Herr.
    destruct (Runner.truthy _) eqn:Htr; simpl.
    + split.
      * unfold Runner.live_thread, Runner.mark_finished. simpl.
        destruct (Runner._thread r); simpl; (split; [by intros [? ?] | done]).
      * apply truthy_nonempty in Htr as (msg & Hmsg & Hne).
        eexists _, msg. repeat split; try done. simpl. by apply Herr.
    + split.
      * unfold Runner.live_thread, Runner.mark_finished. simpl.
        destruct (Runner._thread r); simpl; (split; [by intros [? ?] | done]).
      * eexists. repeat split; try done.
Qed.

Lemma run_ops_wf (ops : list Runner.Op) (r : Runner.MaintenanceRunner) :
  slot_wf r -> slot_wf (Runner.run_ops ops r).
Proof.
  revert r. induction ops as [|op ops IH]; intros r Hwf; [done|].
  apply IH. by apply apply_op_wf.
Qed.


Lemma slot_state_machine_aux (ops : list Runner.Op) (op : Runner.Op) :
  let slot := Runner.run_ops ops Runner.__init__ in
  step_allowed (Runner._state slot) op (Runner._state (Runner.apply_op op slot)).
Proof.
  intros slot.
  pose proof (run_ops_wf ops Runner.__init__ init_wf) as Hwf.
  pose proof (apply_op_wf op slot Hwf) as Hwf'.
  fold slot in Hwf. destruct Hwf as [Hlive Hres].
  destruct op as [sib now name m c cb| | |st en now]; simpl.
  - unfold Runner.start_action. destruct sib; simpl.
    { apply start_refused. by left. }
    destruct (Runner.state_eqb _ _) eqn:Heq; simpl.
    + apply start_refused. right. by apply state_eqb_eq.
    + apply start_accepted. by apply state_eqb_neq_source.
  - unfold Runner.stop_action. destruct (negb _); apply stop_keeps_state.
  - unfold Runner.dismiss.
    destruct (Runner._state slot) eqn:Hst; simpl; rewrite ?Hst.
    + apply dismiss_ignored. by intros [?|?].
    + apply dismiss_ignored. by intros [?|?].
    + apply dismiss_terminal. by left.
    + apply dismiss_terminal. by right.
  - destruct (Runner.live_thread slot) as [t|] eqn:Ht.
    + assert (Hrun : Runner._state slot = Runner.RUNNING) by (by apply Hlive).
      rewrite Hrun. apply worker_finishes.
      simpl in Hwf'. rewrite Ht in Hwf'. destruct Hwf' as [Hlive' _].
      rewrite Hrun in Hres. destruct Hres as (res & Hr & _).
      unfold Runner.mark_finished. simpl.
      by apply (run_action_terminal st en now (Runner.t_action_name t)
                  (Runner.t_service_method t) (Runner.t_on_complete t) slot res).
    + apply worker_absent. intros Hrun. apply Hlive in Hrun as [? ?]. done.
Qed.

(** X16. The slot is the state machine IDLE -> RUNNING -> COMPLETED or
    FAILED -> IDLE.  In every reachable state: a start is accepted from every
    state but RUNNING, a terminal state included, and refused otherwise; a
    stop never changes the state; a dismiss takes a terminal state to IDLE
    and nothing else anywhere; the worker finishing takes RUNNING to a
    terminal state and does nothing otherwise. *)
Theorem slot_state_machine (ops : list Runner.Op) (op : Runner.Op) :
  let slot := Runner.run_ops ops Runner.__init__ in
  step_allowed (Runner._state slot) op (Runner._state (Runner.apply_op op slot)).
Proof. apply slot_state_machine_aux. Qed.

(** X17. The slot never gets stuck: from every state it can reach, letting
    the worker finish and dismissing leaves it IDLE, and a start is then
    accepted when the sibling slot is not running. *)
Theorem slot_always_recovers (ops : list Runner.Op) (st en now now' : Z)
    (name : string) (method : Runner.ServiceMethod) (count : Z)
    (cb : option Runner.OnComplete) :
  let slot := Runner.run_ops ops Runner.__init__ in
  let idle := Runner.dismiss (Runner.apply_op (Runner.WorkerFinishes st en now) slot) in
  Runner._state idle = Runner.IDLE
  /\ (Runner.start_action false now' name method count cb idle).1.1 = true.
Proof.
  intros slot idle.
  assert (Hidle : Runner._state idle = Runner.IDLE).
  { subst idle.
    pose proof (slot_state_machine_aux ops (Runner.WorkerFinishes st en now))
      as Hstep. cbv zeta in Hstep. fold slot in Hstep.
    remember (Runner.apply_op (Runner.WorkerFinishes st en now) slot) as s1.
    assert (Hne : Runner._state s1 <> Runner.RUNNING).
    { inversion Hstep as [| | | | |s' ? ? ? Hterm|s ? ? ? Hn];
        [destruct Hterm; congruence | congruence]. }
    unfold Runner.dismiss.
    destruct (Runner._state s1) eqn:Hs; simpl; congruence. }
  split; [done|]. unfold Runner.start_action. by rewrite Hidle.
Qed.

Lemma status_of_busy (r : Runner.MaintenanceRunner)
    (res : Runner.MaintenanceResult) :
  Runner._state r <> Runner.IDLE ->
  Runner._result r = Some res ->
  Runner.action_result res = None ->
  Runner.get_status_dict r !! "error_message"
  = Some (Runner.str_or_none (Runner.error_message res))
  /\ Runner.get_status_dict r !! "completed_at"
     = Some (Runner.iso_or_none (Runner.completed_at res))
  /\ dom (Runner.get_status_dict r) = base_status_keys.
Proof.
  intros Hne Hr Ha. unfold Runner.get_status_dict. rewrite Hr, Ha.
  destruct (Runner.state_eqb (Runner._state r) Runner.IDLE) eqn:Hs.
  { by apply state_eqb_eq in Hs. }
  repeat split; vm_compute; reflexivity.
Qed.

(** X18. What the snapshot shows of a failure.  In every state the slot
    can reach: a FAILED slot shows an error message that is not empty, and
    no result entries; a RUNNING slot shows no error message, no completion
    time and no result entries. *)
Theorem status_of_failed_and_running (ops : list Runner.Op) :
  let slot := Runner.run_ops ops Runner.__init__ in
  let status := Runner.get_status_dict slot in
  (Runner._state slot = Runner.FAILED ->
     (exists msg, msg <> EmptyString
                  /\ status !! "error_message" = Some (Runner.VStr msg))
     /\ dom status = base_status_keys)
  /\ (Runner._state slot = Runner.RUNNING ->
      status !! "error_message" = Some Runner.VNone
      /\ status !! "completed_at" = Some Runner.VNone
      /\ dom status = base_status_keys).
Proof.
  intros slot status. subst status.
  destruct (run_ops_wf ops Runner.__init__ init_wf) as [_ Hres].
  fold slot in Hres. split; intros Hst; rewrite Hst in Hres.
  - destruct Hres as (res & msg & Hr & _ & _ & Ha & He & Hne).
    destruct (status_of_busy slot res) as (Hem & _ & Hdom);
      [congruence | done | done |].
    split; [|done]. exists msg. split; [done|]. by rewrite Hem, He.
  - destruct Hres as (res & Hr & _ & Hc & Ha & He).
    destruct (status_of_busy slot res) as (Hem & Hca & Hdom);
      [congruence | done | done |].
    by rewrite Hem, Hca, He, Hc.
Qed.

(** X19. A completed action shows no error: in every state the slot can
    reach, the snapshot of a COMPLETED slot has the error message [None]
    and a completion time. *)
Theorem status_of_completed (ops : list Runner.Op) :
  let slot := Runner.run_ops ops Runner.__init__ in
  let status := Runner.get_status_dict slot in
  Runner._state slot = Runner.COMPLETED ->
  status !! "error_message" = Some Runner.VNone
  /\ (exists t, status !! "completed_at" = Some (Runner.VIso t))
  /\ status !! "state" = Some (Runner.VStr "completed").
Proof.
  intros slot status Hst. subst status.
  destruct (run_ops_wf ops Runner.__init__ init_wf) as [_ Hres].
  fold slot in Hres. rewrite Hst in Hres.
  destruct Hres as (res & Hr & Hs & [t Hc] & He).
  unfold Runner.get_status_dict. rewrite Hr, Hst. simpl.
  rewrite Hs, He, Hc.
  destruct (Runner.action_result res);
    (split; [reflexivity|]; split; [by exists t | reflexivity]).
Qed.

Lemma status_of_completed_witness :
  let slot :=
    Runner.run_ops
      [Runner.StartAction false 100 "sync-to-array" moves_three_files 3 None;
       Runner.WorkerFinishes 101 109 109] Runner.__init__ in
  let status := Runner.get_status_dict slot in
  status !! "error_message" = Some Runner.VNone
  /\ (exists t, status !! "completed_at" = Some (Runner.VIso t))
  /\ status !! "state" = Some (Runner.VStr "completed").
Proof.
  exact (status_of_completed
           [Runner.StartAction false 100 "sync-to-array" moves_three_files 3 None;
            Runner.WorkerFinishes 101 109 109] eq_refl).
Defined.

(** X20. Only an accepted start changes what the slot records about the
    action: every other operation (a refused start, a stop, a dismiss, the
    worker finishing) leaves the action name, display text, start time and
    file count of the stored result as they were. *)
Theorem bookkeeping_preserved (op : Runner.Op) (r : Runner.MaintenanceRunner) :
  ~ accepted_start op r ->
  bookkeeping (Runner.apply_op op r) = bookkeeping r.
Proof.
  intros Hno. unfold bookkeeping.
  destruct op as [sib now name m c cb| | |st en now]; simpl.
  - unfold Runner.start_action. destruct sib; [done|].
    destruct (Runner.state_eqb _ _) eqn:Hs; [done|].
    exfalso. apply Hno. split; [done|]. by apply state_eqb_neq_source.
  - unfold Runner.stop_action. by destruct (negb _).
  - unfold Runner.dismiss. destruct (_ || _); [|done]. simpl.
    by destruct (Runner._result r).
  - destruct (Runner.live_thread r) as [t|]; [|done].
    unfold Runner.mark_finished. simpl. rewrite run_action_slot.
    unfold Runner.record_outcome.
    destruct (Runner._result r) as [res|] eqn:Hr; simpl; [|by rewrite Hr].
    by destruct (Runner.truthy _).
Qed.

Lemma bookkeeping_preserved_witness :
  bookkeeping
    (Runner.apply_op (Runner.WorkerFinishes 100 105 105)
       (started_slot raises_without_message None))
  = bookkeeping (started_slot raises_without_message None).
Proof.
  apply (bookkeeping_preserved (Runner.WorkerFinishes 100 105 105)
           (started_slot raises_without_message None)).
  intros [].
Defined.

Lemma prefix_field_other (a : ascii) (t : string) :
  Ascii.eqb a "{" = false -> String.prefix "{count}" (String a t) = false.
Proof.
  intros Ha.
  change (String.prefix "{count}" (String a t))
    with (if ascii_dec "{" a then String.prefix "count}" t else false).
  destruct (ascii_dec "{" a) as [<-|Hne]; [|done].
  by rewrite Ascii.eqb_refl in Ha.
Qed.

Lemma format_no_field (n template : string) :
  Py.char_free "{" template = true ->
  Runner.format_count_aux 0 n template = template.
Proof.
  induction template as [|a t IH]; [done|].
  intros [Ha Ht]%andb_prop. apply negb_true_iff in Ha.
  change (Runner.format_count_aux 0 n (String a t))
    with (if String.prefix "{count}" (String a t)
          then n +:+ Runner.format_count_aux 6 n t
          else String a (Runner.format_count_aux 0 n t)).
  assert (Hp : String.prefix "{count}" (String a t) = false).
  { by apply prefix_field_other. }
  by rewrite Hp, IH.
Qed.

Lemma format_one_field (n pre post : string) :
  Py.char_free "{" pre = true ->
  Py.char_free "{" post = true ->
  Runner.format_count_aux 0 n (pre +:+ "{count}" +:+ post)
  = pre +:+ n +:+ post.
Proof.
  intros Hpre Hpost. induction pre as [|a t IH].
  - rewrite !append_nil_l.
    assert (Hp : String.prefix "{count}" ("{count}" +:+ post) = true)
      by (by destruct post).
    change (Runner.format_count_aux 0 n ("{count}" +:+ post))
      with (if String.prefix "{count}" ("{count}" +:+ post)
            then n +:+ Runner.format_count_aux 0 n post
            else String "{" (Runner.format_count_aux 0 n ("count}" +:+ post))).
    by rewrite Hp, format_no_field.
  - apply andb_prop in Hpre as [Ha Ht]. apply negb_true_iff in Ha.
    rewrite !(append_cons a t).
    change (Runner.format_count_aux 0 n (String a (t +:+ "{count}" +:+ post)))
      with (if String.prefix "{count}" (String a (t +:+ "{count}" +:+ post))
            then n +:+ Runner.format_count_aux 6 n (t +:+ "{count}" +:+ post)
            else String a (Runner.format_count_aux 0 n (t +:+ "{count}" +:+ post))).
    assert (Hp : String.prefix "{count}" (String a (t +:+ "{count}" +:+ post))
                 = false).
    { by apply prefix_field_other. }
    by rewrite Hp, IH.
Qed.

(** X21. The display text of a started action.  The actions that have a
    template are exactly the asynchronous ones; for each of them the text
    is its template with the file count, in decimal, in place of the
    [{count}] field; for every other action name it is the default text,
    unchanged. *)
Theorem action_display_text (now : Z) (name : string)
    (method : Runner.ServiceMethod) (count : Z)
    (cb : option Runner.OnComplete) (slot : Runner.MaintenanceRunner) :
  Runner._state slot <> Runner.RUNNING ->
  dom Runner.ACTION_DISPLAY = RunnerTables.ASYNC_ACTIONS
  /\ exists res,
       Runner._result (Runner.start_action false now name method count cb slot).1.2
       = Some res
       /\ (name ∈ RunnerTables.ASYNC_ACTIONS ->
           exists pre post,
             Runner.ACTION_DISPLAY !! name = Some (pre +:+ "{count}" +:+ post)
             /\ Runner.action_display res
                = pre +:+ Py.str_of_int count +:+ post)
       /\ (name ∉ RunnerTables.ASYNC_ACTIONS ->
           Runner.action_display res = "Running maintenance action...").
Proof.
  intros Hne. assert (Hdom : dom Runner.ACTION_DISPLAY = RunnerTables.ASYNC_ACTIONS)
    by (vm_compute; reflexivity).
  split; [done|]. unfold Runner.start_action.
  apply state_eqb_false in Hne. rewrite Hne. simpl. eexists. split; [done|].
  simpl. split.
  - intros Hin. unfold RunnerTables.ASYNC_ACTIONS in Hin.
    unfold Runner.format_count.
    repeat (apply elem_of_union in Hin as [Hin|Hin]);
      apply elem_of_singleton in Hin as ->.
    + exists "Keeping ", " file(s) on cache...". split; [reflexivity|].
      by apply (format_one_field _ "Keeping " " file(s) on cache...").
    + exists "Moving ", " file(s) to array...". split; [reflexivity|].
      by apply (format_one_field _ "Moving " " file(s) to array...").
    + exists "Fixing ", " file(s) with backup...". split; [reflexivity|].
      by apply (format_one_field _ "Fixing " " file(s) with backup...").
    + exists "Restoring ", " backup(s)...". split; [reflexivity|].
      by apply (format_one_field _ "Restoring " " backup(s)...").
    + exists "Deleting ", " backup(s)...". split; [reflexivity|].
      by apply (format_one_field _ "Deleting " " backup(s)...").
  - intros Hnot. rewrite <- Hdom in Hnot. apply not_elem_of_dom in Hnot.
    rewrite Hnot. reflexivity.
Qed.

Lemma action_display_text_witness :
  dom Runner.ACTION_DISPLAY = RunnerTables.ASYNC_ACTIONS
  /\ exists res,
       Runner._result
         (Runner.start_action false 100 "restore-plexcached" moves_three_files
            12 None Runner.__init__).1.2 = Some res
       /\ (("restore-plexcached" : string) ∈ RunnerTables.ASYNC_ACTIONS ->
           exists pre post,
             Runner.ACTION_DISPLAY !! ("restore-plexcached" : string)
             = Some (pre +:+ "{count}" +:+ post)
             /\ Runner.action_display res
                = pre +:+ Py.str_of_int 12 +:+ post)
       /\ (("restore-plexcached" : string) ∉ RunnerTables.ASYNC_ACTIONS ->
           Runner.action_display res = "Running maintenance action...").
Proof.
  apply (action_display_text 100 "restore-plexcached" moves_three_files 12
           None Runner.__init__).
  discriminate.
Defined.

(* ===================================================================== *)
(** ** Logging configuration *)
(* ===================================================================== *)

Lemma filter_loop_cases (patterns : list string) (eff : Z)
    (record : Logging.LogRecord) :
  (Logging.filter_loop patterns eff record = None
   /\ forall p, p ∈ patterns -> Py.contains (Logging.msg record) p = false)
  \/ ((exists p, p ∈ patterns /\ Py.contains (Logging.msg record) p = true)
      /\ Logging.filter_loop patterns eff record
         = Some (if eff <=? Logging.DEBUG
                 then (true, Logging.mkRecord Logging.DEBUG "DEBUG"
                               (Logging.msg record))
                 else (false, record))).
Proof.
  induction patterns as [|q rest IH]; simpl.
  - left. split; [done|]. intros p Hp. by apply elem_of_nil in Hp.
  - destruct (Py.contains (Logging.msg record) q) eqn:Hq.
    + right. split; [exists q; split; [left | done]|].
      by destruct (eff <=? Logging.DEBUG).
    + destruct IH as [[Hnone Hall]|[(p & Hp & Hc) Hsome]].
      * left. split; [done|]. intros p Hp.
        apply elem_of_cons in Hp as [->|Hp]; [done | by apply Hall].
      * right. split; [|done]. exists p. split; [by right | done].
Qed.

(** X22. What [VerboseMessageFilter] lets through.  A record is suppressed
    exactly when it is at level INFO, its message contains one of the
    patterns, and the effective level is above DEBUG; a suppressed record is
    not changed.  A record that is let through is unchanged, or, being an
    INFO record with a pattern under an effective level of DEBUG or below,
    comes out as a DEBUG record with the same message.  Records of any other
    level, warnings and errors included, always pass unchanged. *)
Theorem filter_suppresses_iff (eff : Z) (record : Logging.LogRecord) :
  let '(allowed, record') := Logging.filter eff record in
  (allowed = false
   <-> Logging.levelno record = Logging.INFO
       /\ (exists p, p ∈ Logging.DOWNGRADE_PATTERNS
                     /\ Py.contains (Logging.msg record) p = true)
       /\ Logging.DEBUG < eff)
  /\ (allowed = false -> record' = record)
  /\ (allowed = true ->
      record' = record
      \/ (Logging.levelno record = Logging.INFO
          /\ eff <= Logging.DEBUG
          /\ record' = Logging.mkRecord Logging.DEBUG "DEBUG"
                         (Logging.msg record)))
  /\ (Logging.levelno record <> Logging.INFO ->
      allowed = true /\ record' = record).
Proof.
  unfold Logging.filter.
  destruct (Z.eqb_spec (Logging.levelno record) Logging.INFO) as [Hinfo|Hne].
  - destruct (filter_loop_cases Logging.DOWNGRADE_PATTERNS eff record)
      as [[-> Hall]|[(p & Hp & Hc) ->]].
    + repeat split; try done; try (by left).
      intros (_ & (p & Hp & Hc) & _). rewrite (Hall p Hp) in Hc. done.
    + destruct (Z.leb_spec eff Logging.DEBUG).
      * repeat split; try done; try lia.
        intros _. right. done.
      * repeat split; try done; try lia; try (by exists p).
  - repeat split; try done; try (by left). by intros [? _].
Qed.

(** X23. The filter is attached to the logger and to each handler, so a
    record meets it several times.  A record that has passed once passes
    again, unchanged, whatever the effective level then is. *)
Theorem filter_passes_again (eff eff' : Z) (record : Logging.LogRecord) :
  (Logging.filter eff record).1 = true ->
  Logging.filter eff' (Logging.filter eff record).2
  = (true, (Logging.filter eff record).2).
Proof.
  unfold Logging.filter.
  destruct (Z.eqb_spec (Logging.levelno record) Logging.INFO) as [Hinfo|Hne].
  - destruct (filter_loop_cases Logging.DOWNGRADE_PATTERNS eff record)
      as [[-> Hall]|[(p & Hp & Hc) ->]]; cbn [fst snd].
    + intros _.
      destruct (Z.eqb_spec (Logging.levelno record) Logging.INFO); [|done].
      destruct (filter_loop_cases Logging.DOWNGRADE_PATTERNS eff' record)
        as [[-> _]|[(p & Hp & Hc) _]]; [done|].
      rewrite (Hall p Hp) in Hc. done.
    + destruct (eff <=? Logging.DEBUG); cbn [fst snd]; done.
  - cbn [fst snd]. intros _.
    by destruct (Z.eqb_spec (Logging.levelno record) Logging.INFO).
Qed.

Lemma filter_passes_again_witness :
  Logging.filter 30
    (Logging.filter 10
       (Logging.mkRecord 20 "INFO" "Failed to parse '' to datetime as timestamp")).2
  = (true,
     (Logging.filter 10
        (Logging.mkRecord 20 "INFO" "Failed to parse '' to datetime as timestamp")).2).
Proof.
  apply (filter_passes_again 10 30
           (Logging.mkRecord 20 "INFO"
              "Failed to parse '' to datetime as timestamp")).
  reflexivity.
Defined.

Lemma lower_char_idempotent (a : ascii) :
  Py.lower_char (Py.lower_char a) = Py.lower_char a.
Proof.
  destruct a as [[] [] [] [] [] [] [] []]; vm_compute; reflexivity.
Qed.

Lemma lower_idempotent (s : string) : Py.lower (Py.lower s) = Py.lower s.
Proof.
  induction s as [|a s IH]; simpl; [done|].
  by rewrite lower_char_idempotent, IH.
Qed.

Lemma lower_empty (s : string) :
  String.eqb (Py.lower s) EmptyString = String.eqb s EmptyString.
Proof. by destruct s. Qed.

(** The level a name stands for in [_set_handler_level]'s table. *)
Lemma handler_level_lookup (k : string) :
  match Logging.handler_level_mapping !! k with
  | Some level =>
      (k = "debug" /\ level = 10) \/ (k = "info" /\ level = 20)
      \/ (k = "warning" /\ level = 30) \/ (k = "error" /\ level = 40)
      \/ (k = "critical" /\ level = 50) \/ (k = "summary" /\ level = 31)
  | None => k <> "summary"
  end.
Proof.
  unfold Logging.handler_level_mapping.
  destruct (decide (k = "debug")) as [->|?]; [vm_compute; tauto|].
  rewrite lookup_insert_ne by done.
  destruct (decide (k = "info")) as [->|?]; [vm_compute; tauto|].
  rewrite lookup_insert_ne by done.
  destruct (decide (k = "warning")) as [->|?]; [vm_compute; tauto|].
  rewrite lookup_insert_ne by done.
  destruct (decide (k = "error")) as [->|?]; [vm_compute; tauto|].
  rewrite lookup_insert_ne by done.
  destruct (decide (k = "critical")) as [->|?]; [vm_compute; tauto|].
  rewrite lookup_insert_ne by done.
  destruct (decide (k = "summary")) as [->|?]; [vm_compute; tauto|].
  by rewrite lookup_singleton_ne.
Qed.

Lemma log_level_lookup (k : string) :
  match Logging.log_level_mapping !! k with
  | Some level =>
      level = 10 \/ level = 20 \/ level = 30 \/ level = 40 \/ level = 50
  | None => True
  end.
Proof.
  unfold Logging.log_level_mapping.
  destruct (decide (k = "debug")) as [->|?]; [vm_compute; tauto|].
  rewrite lookup_insert_ne by done.
  destruct (decide (k = "info")) as [->|?]; [vm_compute; tauto|].
  rewrite lookup_insert_ne by done.
  destruct (decide (k = "warning")) as [->|?]; [vm_compute; tauto|].
  rewrite lookup_insert_ne by done.
  destruct (decide (k = "error")) as [->|?]; [vm_compute; tauto|].
  rewrite lookup_insert_ne by done.
  destruct (decide (k = "critical")) as [->|?]; [vm_compute; tauto|].
  by rewrite lookup_singleton_ne.
Qed.

(** X24. Level names.  Both [_set_log_level] and [_set_handler_level] read
    the name without regard to letter case.  The logger is always set to one
    of the five standard levels, never to SUMMARY; a handler is set to
    SUMMARY exactly when the name, in lower case, is ["summary"]. *)
Theorem level_names (name : string) :
  Logging._set_log_level (Py.lower name) = Logging._set_log_level name
  /\ Logging._set_handler_level (Py.lower name)
     = Logging._set_handler_level name
  /\ (Logging._set_log_level name = 10 \/ Logging._set_log_level name = 20
      \/ Logging._set_log_level name = 30 \/ Logging._set_log_level name = 40
      \/ Logging._set_log_level name = 50)
  /\ (Logging._set_handler_level name = Logging.SUMMARY
      <-> Py.lower name = "summary").
Proof.
  unfold Logging._set_log_level, Logging._set_handler_level.
  rewrite !lower_empty, !lower_idempotent.
  split; [done|]. split; [done|].
  destruct (String.eqb_spec name EmptyString) as [->|Hne].
  { split; [vm_compute; tauto|]. split; [done | by intros ?]. }
  split.
  - pose proof (log_level_lookup (Py.lower name)) as H.
    destruct (Logging.log_level_mapping !! Py.lower name); [done|].
    vm_compute. tauto.
  - pose proof (handler_level_lookup (Py.lower name)) as H.
    destruct (Logging.handler_level_mapping !! Py.lower name) as [level|].
    + change Logging.SUMMARY with 31.
      destruct H as [[-> ->]|[[-> ->]|[[-> ->]|[[-> ->]|[[-> ->]|[-> ->]]]]]];
        split; done.
    + split; [done | by intros ?].
Qed.

Lemma insert_by_mtime_perm (x : Logging.LogFile) (l : list Logging.LogFile) :
  Permutation (Logging.insert_by_mtime x l) (x :: l).
Proof.
  induction l as [|y rest IH]; simpl; [done|].
  destruct (Logging.st_mtime x <=? Logging.st_mtime y); [done|].
  rewrite IH. apply perm_swap.
Qed.

Lemma sort_by_mtime_perm (l : list Logging.LogFile) :
  Permutation (Logging.sort_by_mtime l) l.
Proof.
  induction l as [|x rest IH]; simpl; [done|].
  by rewrite insert_by_mtime_perm, IH.
Qed.

Lemma insert_by_mtime_sorted (x : Logging.LogFile) (l : list Logging.LogFile) :
  oldest_first l -> oldest_first (Logging.insert_by_mtime x l).
Proof.
  induction l as [|y rest IH]; simpl; [done|]. intros [Hy Hrest].
  destruct (Z.leb_spec (Logging.st_mtime x) (Logging.st_mtime y)) as [Hle|Hlt].
  - simpl. repeat split; try done. constructor; [done|].
    eapply Forall_impl; [exact Hy|]. simpl. intros z Hz. lia.
  - simpl. split; [|by apply IH].
    rewrite insert_by_mtime_perm. constructor; [lia | done].
Qed.

Lemma sort_by_mtime_sorted (l : list Logging.LogFile) :
  oldest_first (Logging.sort_by_mtime l).
Proof.
  induction l as [|x rest IH]; simpl; [done|]. by apply insert_by_mtime_sorted.
Qed.

Lemma oldest_first_split (k : nat) (l : list Logging.LogFile) :
  oldest_first l ->
  forall g x, g ∈ take k l -> x ∈ drop k l ->
              Logging.st_mtime g <= Logging.st_mtime x.
Proof.
  revert k. induction l as [|y rest IH]; intros k Hs g x Hg Hx.
  - rewrite take_nil in Hg. by apply elem_of_nil in Hg.
  - destruct k as [|k]; simpl in *; [by apply elem_of_nil in Hg|].
    destruct Hs as [Hy Hrest].
    apply elem_of_cons in Hg as [->|Hg].
    + rewrite Forall_forall in Hy. apply Hy.
      by apply (subseteq_drop k rest).
    + by apply (IH k).
Qed.

Lemma oldest_first_drop (k : nat) (l : list Logging.LogFile) :
  oldest_first l -> oldest_first (drop k l).
Proof.
  revert k. induction l as [|x rest IH]; intros k Hs.
  - by rewrite drop_nil.
  - destruct k; [done|]. simpl. apply IH. by destruct Hs.
Qed.

Lemma remove_loop_unfold (max : Z) (os_remove : string -> option string)
    (l : list Logging.LogFile) :
  Logging.remove_loop max os_remove l
  = if Z.of_nat (length l) >? max then
      match l with
      | [] => ([], [], Some (Logging.IndexError "pop from empty list"))
      | oldest :: rest =>
          match os_remove (Logging.path oldest) with
          | Some msg => ([], rest, Some (OSError msg))
          | None =>
              let '(removed, remaining, exc) :=
                Logging.remove_loop max os_remove rest in
              (Logging.path oldest :: removed, remaining, exc)
          end
      end
    else ([], l, None).
Proof. by destruct l. Qed.

Lemma remove_loop_all (max : Z) (l : list Logging.LogFile) :
  0 <= max ->
  let k := (length l - Z.to_nat max)%nat in
  Logging.remove_loop max removes_all l
  = (Logging.path <$> take k l, drop k l, None).
Proof.
  intros Hmax. cbv zeta.
  induction l as [|x rest IH]; rewrite remove_loop_unfold.
  - simpl. destruct (Z.gtb_spec (Z.of_nat 0) max); [lia | done].
  - destruct (Z.gtb_spec (Z.of_nat (length (x :: rest))) max) as [Hgt|Hle].
    + unfold removes_all at 1. rewrite IH.
      simpl length in *.
      replace (S (length rest) - Z.to_nat max)%nat
        with (S (length rest - Z.to_nat max)) by lia.
      done.
    + simpl length in *.
      replace (S (length rest) - Z.to_nat max)%nat with 0%nat by lia.
      done.
Qed.

Lemma remove_loop_negative (max : Z) (l : list Logging.LogFile) :
  max < 0 ->
  Logging.remove_loop max removes_all l
  = (Logging.path <$> l, [],
     Some (Logging.IndexError "pop from empty list")).
Proof.
  intros Hmax. induction l as [|x rest IH]; rewrite remove_loop_unfold.
  - simpl. destruct (Z.gtb_spec (Z.of_nat 0) max); [done | lia].
  - destruct (Z.gtb_spec (Z.of_nat (length (x :: rest))) max) as [Hgt|Hle];
      [|simpl length in *; lia].
    unfold removes_all at 1. by rewrite IH.
Qed.

(** X25. Log rotation keeps the newest files.  With a limit that is not
    negative and removals that succeed, [_clean_old_log_files] ends without
    an exception; the files it leaves are as many as there were, up to the
    limit; together with the files it removed they are the files found; and
    no removed file is newer than a file left. *)
Theorem rotation_keeps_newest (max_log_files : Z)
    (globbed : list Logging.LogFile) :
  0 <= max_log_files ->
  let '(removed, kept, exc) :=
    Logging._clean_old_log_files max_log_files removes_all globbed in
  exc = None
  /\ length kept = Nat.min (length globbed) (Z.to_nat max_log_files)
  /\ oldest_first kept
  /\ exists gone,
       removed = Logging.path <$> gone
       /\ Permutation globbed (gone ++ kept)
       /\ forall g k, g ∈ gone -> k ∈ kept ->
                      Logging.st_mtime g <= Logging.st_mtime k.
Proof.
  intros Hmax. unfold Logging._clean_old_log_files.
  rewrite (remove_loop_all max_log_files _ Hmax). cbv zeta.
  pose proof (sort_by_mtime_perm globbed) as Hperm.
  pose proof (sort_by_mtime_sorted globbed) as Hsorted.
  set (sorted := Logging.sort_by_mtime globbed) in *.
  set (k := (length sorted - Z.to_nat max_log_files)%nat).
  split; [done|]. split.
  - rewrite length_drop. subst k. rewrite (Permutation_length Hperm). lia.
  - split.
    + by apply oldest_first_drop.
    + exists (take k sorted). split; [done|]. split.
      * by rewrite take_drop.
      * by apply oldest_first_split.
Qed.

Lemma rotation_keeps_newest_witness :
  let globbed :=
    [Logging.mkLogFile "plexcache_log_20260103_0900.log" 300;
     Logging.mkLogFile "plexcache_log_20260101_0900.log" 100;
     Logging.mkLogFile "plexcache_log_20260102_0900.log" 200] in
  let '(removed, kept, exc) :=
    Logging._clean_old_log_files 2 removes_all globbed in
  exc = None
  /\ length kept = Nat.min (length globbed) (Z.to_nat 2)
  /\ oldest_first kept
  /\ exists gone,
       removed = Logging.path <$> gone
       /\ Permutation globbed (gone ++ kept)
       /\ forall g k, g ∈ gone -> k ∈ kept ->
                      Logging.st_mtime g <= Logging.st_mtime k.
Proof.
  apply (rotation_keeps_newest 2
           [Logging.mkLogFile "plexcache_log_20260103_0900.log" 300;
            Logging.mkLogFile "plexcache_log_20260101_0900.log" 100;
            Logging.mkLogFile "plexcache_log_20260102_0900.log" 200]).
  lia.
Defined.

(** X26. A negative limit empties the log folder and then fails: with
    removals that succeed, [_clean_old_log_files] removes every file found
    and ends with the [IndexError] of popping from the empty list. *)
Theorem rotation_negative_limit (max_log_files : Z)
    (globbed : list Logging.LogFile) :
  max_log_files < 0 ->
  let '(removed, kept, exc) :=
    Logging._clean_old_log_files max_log_files removes_all globbed in
  exc = Some (Logging.IndexError "pop from empty list")
  /\ kept = []
  /\ Permutation removed (Logging.path <$> globbed).
Proof.
  intros Hmax. unfold Logging._clean_old_log_files.
  rewrite (remove_loop_negative max_log_files _ Hmax).
  split; [done|]. split; [done|].
  apply fmap_Permutation. apply sort_by_mtime_perm.
Qed.

Lemma rotation_negative_limit_witness :
  let '(removed, kept, exc) :=
    Logging._clean_old_log_files (-1) removes_all
      [Logging.mkLogFile "plexcache_log_20260101_0900.log" 100] in
  exc = Some (Logging.IndexError "pop from empty list")
  /\ kept = []
  /\ Permutation removed
       (Logging.path <$> [Logging.mkLogFile "plexcache_log_20260101_0900.log" 100]).
Proof.
  apply (rotation_negative_limit (-1)
           [Logging.mkLogFile "plexcache_log_20260101_0900.log" 100]).
  lia.
Defined.

Lemma handlers_shape (c d : bool) (l wl : Z) (url : string) :
  let handlers :=
    (if c then [Logging.UnraidHandler l] else [])
    ++ (if d then [Logging.WebhookHandler url wl] else []) in
  (has_unraid_handler handlers <-> c = true)
  /\ (has_webhook_handler handlers <-> d = true).
Proof.
  unfold has_unraid_handler, has_webhook_handler.
  destruct c, d; simpl; split; split; try done; try (intros _; eexists; by left);
    try (intros _; eexists _, _; by left);
    try (intros _; eexists _, _; right; by left).
  all: try (intros [lv H]; repeat (apply elem_of_cons in H as [H|H]; [done|]);
            by apply elem_of_nil in H).
  all: try (intros (u & lv & H);
            repeat (apply elem_of_cons in H as [H|H]; [done|]);
            by apply elem_of_nil in H).
Qed.

(** X27. Which notification handlers are installed.  With the configured
    type read in lower case: the Unraid handler is installed exactly for
    type ["unraid"], for ["system"] on Unraid outside Docker, and for
    ["both"] unless on Unraid inside Docker; the webhook handler is
    installed exactly when a webhook URL is set and the type is ["webhook"]
    or ["both"].  So ["system"] never sends to a webhook, and on Unraid
    inside Docker neither ["system"] nor ["both"] calls the Unraid notify
    script. *)
Theorem notification_handlers_decision (cfg : Logging.NotificationConfig)
    (is_unraid is_docker : bool) :
  let kind := Py.lower (Logging.notification_type cfg) in
  let handlers := Logging.setup_notification_handlers cfg is_unraid is_docker in
  (has_unraid_handler handlers
   <-> kind = "unraid"
       \/ (kind = "system" /\ is_unraid = true /\ is_docker = false)
       \/ (kind = "both" /\ (is_unraid = false \/ is_docker = false)))
  /\ (has_webhook_handler handlers
      <-> Logging.webhook_url cfg <> EmptyString
          /\ (kind = "webhook" \/ kind = "both")).
Proof.
  intros kind handlers. subst handlers.
  unfold Logging.setup_notification_handlers. fold kind.
  match goal with
  | |- context [(if ?c then [Logging.UnraidHandler ?l] else [])
                ++ (if ?d then [Logging.WebhookHandler ?u ?wl] else [])] =>
      destruct (handlers_shape c d l wl u) as [-> ->]
  end.
  unfold Logging.in_pair.
  assert (Hurl : negb (String.eqb (Logging.webhook_url cfg) EmptyString) = true
                 <-> Logging.webhook_url cfg <> EmptyString).
  { rewrite negb_true_iff. apply String.eqb_neq. }
  rewrite andb_true_iff, Hurl. clear Hurl.
  generalize (Logging.webhook_url cfg <> EmptyString). intros U.
  destruct (String.eqb_spec kind "system") as [->|Hs].
  { destruct is_unraid, is_docker; simpl; split; split;
      try tauto; try (intros; intuition congruence). }
  destruct (String.eqb_spec kind "both") as [->|Hb].
  { destruct is_unraid, is_docker; simpl; split; split;
      try tauto; try (intros; intuition congruence). }
  destruct (String.eqb_spec kind "unraid") as [->|Hu].
  { simpl. split; split; try tauto; try (intros; intuition congruence). }
  destruct (String.eqb_spec kind "webhook") as [->|Hw].
  { simpl. split; split; try tauto; try (intros; intuition congruence). }
  pose proof (proj2 (String.eqb_neq _ _) Hb) as Hb'. rewrite Hb'.
  simpl. split; split; try tauto; try (intros; intuition congruence).
Qed.

Lemma add_all_moved (messages : list string) (self : Logging.Summary) :
  Logging.files_moved self = true ->
  add_all messages self
  = Logging.mkSummary (Logging.summary_messages self ++ messages) true.
Proof.
  revert self. induction messages as [|m rest IH]; intros [msgs moved] Hm;
    simpl in *; subst moved.
  - by rewrite app_nil_r.
  - unfold add_all in *. simpl. unfold Logging.add_summary_message at 2. simpl.
    rewrite IH by done. simpl. by rewrite <- app_assoc.
Qed.

(** X28. The summary collects messages in order.  On a manager whose
    [files_moved] flag is clear, whatever messages it holds, the first
    message added replaces them and sets the flag, and the ones added after
    it are appended; so a fresh manager ends up with exactly the messages
    added, oldest first.  [log_summary] then logs nothing for no message,
    the message itself for one, and for several the messages each on its own
    indented line. *)
Theorem summary_collects (stale messages : list string) :
  let self := add_all messages (Logging.mkSummary stale false) in
  (messages <> [] ->
     Logging.summary_messages self = messages
     /\ Logging.files_moved self = true)
  /\ Logging.summary_messages (add_all messages Logging.summary_init) = messages
  /\ Logging.log_summary (add_all messages Logging.summary_init)
     = match messages with
       | [] => None
       | [only] => Some only
       | _ => Some (Logging.newline_indent
                    +:+ Logging.join Logging.newline_indent messages)
       end.
Proof.
  assert (Hgen : forall old,
            messages <> [] ->
            add_all messages (Logging.mkSummary old false)
            = Logging.mkSummary messages true).
  { intros old Hne. destruct messages as [|m rest]; [done|].
    unfold add_all. simpl. unfold Logging.add_summary_message at 2. simpl.
    fold (add_all rest (Logging.mkSummary [m] true)).
    by rewrite add_all_moved. }
  split; [|split].
  - intros Hne. by rewrite Hgen.
  - destruct messages as [|m rest]; [done|].
    unfold Logging.summary_init. by rewrite Hgen.
  - destruct messages as [|m rest]; [done|].
    unfold Logging.summary_init. rewrite Hgen by done.
    unfold Logging.log_summary. simpl. by destruct rest.
Qed.

Lemma summary_collects_witness :
  Logging.summary_messages
    (add_all ["Moved 2 files"; "Freed 3 GB"]
       (Logging.mkSummary ["left over"] false))
  = ["Moved 2 files"; "Freed 3 GB"]
  /\ Logging.files_moved
       (add_all ["Moved 2 files"; "Freed 3 GB"]
          (Logging.mkSummary ["left over"] false)) = true.
Proof.
  apply (proj1 (summary_collects ["left over"] ["Moved 2 files"; "Freed 3 GB"])).
  discriminate.
Defined.

Lemma notification_handlers_decision_witness :
  has_webhook_handler
    (Logging.setup_notification_handlers
       (Logging.mkNotificationConfig "Both" "warning" "SUMMARY"
          "https://example.org/hook") true true).
Proof.
  apply (proj2 (notification_handlers_decision
                  (Logging.mkNotificationConfig "Both" "warning" "SUMMARY"
                     "https://example.org/hook") true true)).
  split; [discriminate | by right].
Defined.

(** X29. A directory that passed [check_path_exists] can be measured: the
    check changes nothing, and on the same world [get_total_drive_size] and
    [get_free_space] do not raise [FileNotFoundError]; they fail only with
    the [OSError] of [os.statvfs] itself, and otherwise return the block
    count, respectively the free block count, times the fragment size. *)
Theorem validated_directory_sizes {W : Type} (os : FileOps.FsOps W)
    (path : string) (w w' : W) :
  FileOps.check_path_exists os path w = (Ok tt, w') ->
  w' = w
  /\ FileOps.os_path_exists os path w = true
  /\ FileOps.os_path_isdir os path w = true
  /\ FileOps.os_access_W_OK os path w = true
  /\ match FileOps.os_statvfs os path w with
     | (SystemUtils.OSOk stat, w1) =>
         FileOps.get_total_drive_size os path w
         = (Ok (FileOps.f_blocks stat * FileOps.f_frsize stat), w1)
         /\ FileOps.get_free_space os path w
            = (Ok (FileOps._convert_bytes_to_readable_size
                     (FileOps.f_bfree stat * FileOps.f_frsize stat)), w1)
     | (SystemUtils.OSFail msg, w1) =>
         FileOps.get_total_drive_size os path w = (Raise (OSError msg), w1)
         /\ FileOps.get_free_space os path w = (Raise (OSError msg), w1)
     end.
Proof.
  unfold FileOps.check_path_exists, FileOps.get_total_drive_size,
    FileOps.get_free_space, FileOps.test, SystemUtils.bind, SystemUtils.call,
    SystemUtils.ret, SystemUtils.raise.
  destruct (FileOps.os_path_exists os path w); simpl; [|done].
  destruct (FileOps.os_path_isdir os path w); simpl; [|done].
  destruct (FileOps.os_access_W_OK os path w); simpl; [|done].
  intros [= <-]. repeat split.
  by destruct (FileOps.os_statvfs os path w) as [[stat|msg] w1].
Qed.

Lemma validated_directory_sizes_witness :
  FileOps.get_total_drive_size (sample_fs true true) "/mnt/cache/tv" 18
  = (Ok 409600, 18)
  /\ FileOps.get_free_space (sample_fs true true) "/mnt/cache/tv" 18
     = (Ok (FileOps.mkQuotient 40960 1024, "KB"), 18).
Proof.
  exact (proj2 (proj2 (proj2 (proj2
           (validated_directory_sizes (sample_fs true true) "/mnt/cache/tv"
              18 18 eq_refl))))).
Defined.
